(** * Chesapeake Bay nitrogen-loss dashboard: the data transformations of
      [Dashboard_micheal.py], embedded and verified.

    Numbers.  The program computes on float64 (and int64) values.  A number
    of the tables is modelled by the rational it stands for ([Q], compared
    with [==]) and the arithmetic by exact arithmetic; a missing value
    (NaN) is [None].  The model's numbers are the program's where the
    program's arithmetic is exact: on whole numbers whose sums stay below
    [2 ^ 48] in absolute value (no float64 sum is rounded, no int64 sum
    wraps).  There a rounding to two decimals of the program gives a
    nearest hundredth, as the model's does; on a tie the program's choice
    depends on the rounding of the float64 product and may be the other
    neighbour.  The theorems about sums and about two-decimal rounding are
    stated for that domain and name a nearest hundredth, not the tie rule.
    The value of [np.log1p] is not modelled: a [LogCol] records the column
    the logarithm was taken of.

    Tables.  A pandas DataFrame is a list of named, typed columns
    ([DataFrame]); Python exceptions are values of [exn] carried by the
    error monad [M]. *)

From Stdlib Require Import ZArith QArith Qround Qabs Lqa Lia.
From Stdlib Require Import List Bool Ascii String Permutation Sorted.
From Stdlib Require Import Numbers.DecimalString.
Import ListNotations.

Open Scope string_scope.
Open Scope list_scope.

(** ** Exceptions *)

Module Exn.

(** A raised Python exception: its class and its argument. *)
Record exn := Raise { exn_class : string; exn_arg : string }.

Definition KeyError (k : string) : exn := Raise "KeyError" k.
Definition TypeError (m : string) : exn := Raise "TypeError" m.
Definition ValueError (m : string) : exn := Raise "ValueError" m.
Definition AttributeError (m : string) : exn := Raise "AttributeError" m.

(** A computation that returns a value or raises. *)
Definition M (A : Type) : Type := (exn + A)%type.

Definition ret {A} (a : A) : M A := inr a.
Definition raise {A} (e : exn) : M A := inl e.

Definition bind {A B} (m : M A) (k : A -> M B) : M B :=
  match m with
  | inl e => inl e
  | inr a => k a
  end.

(** [for x in xs: f x], collecting the results, stopping at the first
    exception. *)
Fixpoint mapM {A B} (f : A -> M B) (xs : list A) : M (list B) :=
  match xs with
  | [] => ret []
  | x :: xs' =>
      bind (f x) (fun y => bind (mapM f xs') (fun ys => ret (y :: ys)))
  end.

End Exn.
Import Exn.

Notation "x <- m ;; k" := (bind m (fun x => k))
  (at level 61, m at next level, right associativity).
Notation "' p <- m ;; k" := (bind m (fun p => k))
  (at level 61, p pattern, m at next level, right associativity).

(** ** Python string methods *)

Module Str.

(** [s.startswith(p)] *)
Definition startswith (s p : string) : bool := String.prefix p s.

(** [s.replace(old, new)] for a non-empty [old]: scan from the left, and
    at each position where [old] occurs emit [new] and skip over the
    occurrence.  [skip] counts the characters of a matched occurrence
    still to be dropped. *)
Fixpoint replace_from (old new : string) (skip : nat) (s : string) : string :=
  match s with
  | EmptyString => EmptyString
  | String c s' =>
      match skip with
      | S k => replace_from old new k s'
      | O =>
          if String.prefix old s
          then (new ++ replace_from old new (String.length old - 1) s')%string
          else String c (replace_from old new 0 s')
      end
  end.

(** With an empty [old], Python puts [new] before every character and at
    the end. *)
Fixpoint intersperse (new s : string) : string :=
  match s with
  | EmptyString => new
  | String c s' => (new ++ String c (intersperse new s'))%string
  end.

Definition replace (s old new : string) : string :=
  match old with
  | EmptyString => intersperse new s
  | _ => replace_from old new 0 s
  end.

Definition is_upper (c : ascii) : bool :=
  let n := nat_of_ascii c in (65 <=? n)%nat && (n <=? 90)%nat.
Definition is_lower (c : ascii) : bool :=
  let n := nat_of_ascii c in (97 <=? n)%nat && (n <=? 122)%nat.
Definition to_upper (c : ascii) : ascii :=
  if is_lower c then ascii_of_nat (nat_of_ascii c - 32) else c.
Definition to_lower (c : ascii) : ascii :=
  if is_upper c then ascii_of_nat (nat_of_ascii c + 32) else c.

(** [s.title()] on ASCII text: a cased letter that follows an uncased
    character is upper-cased, one that follows a cased letter is
    lower-cased, everything else is kept and ends the word. *)
Fixpoint title_from (previous_is_cased : bool) (s : string) : string :=
  match s with
  | EmptyString => EmptyString
  | String c s' =>
      if is_lower c then
        String (if previous_is_cased then c else to_upper c) (title_from true s')
      else if is_upper c then
        String (if previous_is_cased then to_lower c else c) (title_from true s')
      else String c (title_from false s')
  end.

Definition title (s : string) : string := title_from false s.

(** [str(n)] for a natural number. *)
Definition of_nat (n : nat) : string := NilEmpty.string_of_uint (Nat.to_uint n).

End Str.

(** ** Rounding *)

Module Round.

(** [np.rint]: the nearest integer, a tie going to the even one. *)
Definition rint (q : Q) : Z :=
  let n := Qfloor q in
  match Qcompare (q - inject_Z n) (1 # 2) with
  | Lt => n
  | Gt => (n + 1)%Z
  | Eq => if Z.even n then n else (n + 1)%Z
  end.

(** [round(x, 2)] as numpy and pandas compute it: scale by [10 ** 2],
    round to the nearest integer, scale back.  The product and the
    quotient are exact here and rounded to float64 in the program, so on a
    tie of the exact product the program may give the other neighbour. *)
Definition round2 (q : Q) : Q := inject_Z (rint (q * 100)) / 100.

(** [x.round()], zero decimals. *)
Definition round0 (q : Q) : Q := inject_Z (rint q).

(** [x / 10 ** 6] *)
Definition div_1e6 (q : Q) : Q := q / 1000000.

End Round.

(** ** DataFrames *)

Module Frame.

(** A column with its dtype.  [NumCol]: int64 or float64 values, [None]
    for NaN.  [ObjCol]: strings, [None] for NaN.  [LogCol xs]: the
    float64 column [np.log1p(xs)], kept by its arguments; only the
    callback makes such columns, under names that begin with "log_", and
    it never sums, rounds or groups by one, so the operations below that
    are given a [LogCol] as a measure raise. *)
Inductive column :=
| NumCol (xs : list (option Q))
| ObjCol (xs : list (option string))
| LogCol (xs : list (option Q)).

(** A DataFrame: its columns in order, each with its name. *)
Definition DataFrame := list (string * column).

Definition col_len (c : column) : nat :=
  match c with
  | NumCol xs => List.length xs
  | ObjCol xs => List.length xs
  | LogCol xs => List.length xs
  end.

(** [df.columns] *)
Definition columns (df : DataFrame) : list string := map fst df.

(** [len(df)] *)
Definition len (df : DataFrame) : nat :=
  match df with
  | [] => 0%nat
  | (_, c) :: _ => col_len c
  end.

(** Every column has [len df] entries, as in every table pandas builds. *)
Definition rectangular (df : DataFrame) : bool :=
  forallb (fun nc => Nat.eqb (col_len (snd nc)) (len df)) df.

(** [df.columns = names] *)
Definition set_columns (df : DataFrame) (names : list string) : M DataFrame :=
  if Nat.eqb (List.length names) (List.length df)
  then ret (combine names (map snd df))
  else raise (ValueError "Length mismatch").

Fixpoint lookup (df : DataFrame) (name : string) : option column :=
  match df with
  | [] => None
  | (n, c) :: df' => if String.eqb n name then Some c else lookup df' name
  end.

(** [df[name]] *)
Definition getitem (df : DataFrame) (name : string) : M column :=
  match lookup df name with
  | Some c => ret c
  | None => raise (KeyError name)
  end.

(** [df[[n1, n2, ...]]] *)
Definition getitems (df : DataFrame) (names : list string) : M DataFrame :=
  mapM (fun n => c <- getitem df n ;; ret (n, c)) names.

(** [name in df.columns] *)
Definition has_column (df : DataFrame) (name : string) : bool :=
  existsb (String.eqb name) (columns df).

(** [df[name] = c]: overwrite the column of that name, or add it last. *)
Definition setitem (df : DataFrame) (name : string) (c : column) : DataFrame :=
  if has_column df name
  then map (fun nc => if String.eqb (fst nc) name then (fst nc, c) else nc) df
  else df ++ [(name, c)].

(** The numbers of a numeric column. *)
Definition as_num (c : column) : M (list (option Q)) :=
  match c with
  | NumCol xs => ret xs
  | ObjCol _ => raise (TypeError "unsupported operand type(s): str")
  | LogCol _ => raise (TypeError "log column used as a measure")
  end.

(** A missing value counts as zero in a sum ([skipna=True]). *)
Definition nz (o : option Q) : Q :=
  match o with
  | Some q => q
  | None => 0
  end.

(** [Series.sum()], with exact addition: the program's float64 sum where
    no partial sum is rounded, its int64 sum where none wraps. *)
Definition nansum (xs : list (option Q)) : Q :=
  fold_right (fun o acc => nz o + acc) 0 xs.

(** [df.sum(axis=1)]: one sum per row, over all columns of [df]. *)
Definition sum_axis1 (df : DataFrame) : M (list (option Q)) :=
  cs <- mapM (fun nc => as_num (snd nc)) df ;;
  ret (map (fun i => Some (nansum (map (fun xs => nth i xs None) cs)))
           (seq 0 (len df))).

(** [df.sum()]: one sum per column. *)
Definition sum_axis0 (df : DataFrame) : M (list (option Q)) :=
  mapM (fun nc => xs <- as_num (snd nc) ;; ret (Some (nansum xs))) df.

(** [np.log1p(c)]: a float64 column made from a numeric one.  Its values
    are not modelled; the column it was made from is recorded. *)
Definition np_log1p (c : column) : M column :=
  xs <- as_num c ;; ret (LogCol xs).

(** [s.str.title().str.replace('_', ' ')] *)
Definition str_title_replace (c : column) : M column :=
  match c with
  | ObjCol xs =>
      ret (ObjCol (map (option_map (fun s => Str.replace (Str.title s) "_" " ")) xs))
  | _ => raise (AttributeError "Can only use .str accessor with string values")
  end.

(** [round(df.div(10 ** 6), 2)] on one column. *)
Definition div_round2 (c : column) : M column :=
  xs <- as_num c ;;
  ret (NumCol (map (option_map (fun q => Round.round2 (Round.div_1e6 q))) xs)).

(** [df.round()]: numeric columns to zero decimals, others untouched. *)
Definition round_col (c : column) : column :=
  match c with
  | NumCol xs => NumCol (map (option_map Round.round0) xs)
  | _ => c
  end.

Definition round (df : DataFrame) : DataFrame :=
  map (fun nc => (fst nc, round_col (snd nc))) df.

(** [pd.concat([a, b])] for two frames with the same column names in the
    same order (the only use in the program): [b]'s rows below [a]'s. *)
Definition concat_col (c1 c2 : column) : M column :=
  match c1, c2 with
  | NumCol a, NumCol b => ret (NumCol (a ++ b))
  | ObjCol a, ObjCol b => ret (ObjCol (a ++ b))
  | LogCol a, LogCol b => ret (LogCol (a ++ b))
  | _, _ => raise (TypeError "columns of mixed dtype")
  end.

Definition concat (a b : DataFrame) : M DataFrame :=
  mapM (fun ab => c <- concat_col (snd (fst ab)) (snd (snd ab)) ;;
                  ret (fst (fst ab), c))
       (combine a b).

End Frame.
Import Frame.

(** ** [groupby] *)

Module GroupBy.

(** A group key: a number (kept in lowest terms, so that equal numbers
    are equal keys) or a string. *)
Inductive key :=
| KNum (q : Q)
| KStr (s : string).

Definition Q_eq_dec (a b : Q) : {a = b} + {a <> b}.
Proof. decide equality; [apply Pos.eq_dec | apply Z.eq_dec]. Defined.

Definition key_eq_dec (a b : key) : {a = b} + {a <> b}.
Proof. decide equality; [apply Q_eq_dec | apply string_dec]. Defined.

Definition key_eqb (a b : key) : bool :=
  if key_eq_dec a b then true else false.

(** The order of the sorted group keys; the keys of one column are all
    numbers or all strings. *)
Definition key_leb (a b : key) : bool :=
  match a, b with
  | KNum x, KNum y => Qle_bool x y
  | KStr x, KStr y => String.leb x y
  | KNum _, KStr _ => true
  | KStr _, KNum _ => false
  end.

(** The key of each row; a row with a missing key belongs to no group
    ([dropna=True]). *)
Definition keys_of (c : column) : M (list (option key)) :=
  match c with
  | NumCol xs => ret (map (option_map (fun q => KNum (Qred q))) xs)
  | ObjCol xs => ret (map (option_map KStr) xs)
  | LogCol _ => raise (TypeError "log column used as a group key")
  end.

Fixpoint somes {A} (l : list (option A)) : list A :=
  match l with
  | [] => []
  | Some a :: l' => a :: somes l'
  | None :: l' => somes l'
  end.

Fixpoint insert (k : key) (l : list key) : list key :=
  match l with
  | [] => [k]
  | h :: t => if key_leb k h then k :: l else h :: insert k t
  end.

Definition sort (l : list key) : list key := fold_right insert [] l.

(** The distinct keys, sorted ([sort=True]). *)
Definition group_keys (ks : list (option key)) : list key :=
  sort (nodup key_eq_dec (somes ks)).

(** The entries of [xs] on the rows whose key is [k], in row order. *)
Fixpoint select {A} (k : key) (ks : list (option key)) (xs : list A) : list A :=
  match ks, xs with
  | Some k' :: ks', x :: xs' =>
      if key_eqb k k' then x :: select k ks' xs' else select k ks' xs'
  | None :: ks', _ :: xs' => select k ks' xs'
  | _, _ => []
  end.

(** The first entry that is not missing. *)
Fixpoint first_valid {A} (xs : list (option A)) : option A :=
  match xs with
  | [] => None
  | Some a :: _ => Some a
  | None :: xs' => first_valid xs'
  end.

Inductive aggfunc := AggSum | AggFirst.

(** One aggregated column: an entry per group, in the order of the
    group keys. *)
Definition agg (f : aggfunc) (ks : list (option key)) (c : column) : M column :=
  match f, c with
  | AggSum, NumCol xs =>
      ret (NumCol (map (fun k => Some (nansum (select k ks xs))) (group_keys ks)))
  | AggSum, _ => raise (TypeError "sum of a column that is not numeric")
  | AggFirst, NumCol xs =>
      ret (NumCol (map (fun k => first_valid (select k ks xs)) (group_keys ks)))
  | AggFirst, ObjCol xs =>
      ret (ObjCol (map (fun k => first_valid (select k ks xs)) (group_keys ks)))
  | AggFirst, LogCol xs =>
      ret (LogCol (map (fun k => first_valid (select k ks xs)) (group_keys ks)))
  end.

(** The group keys as a column of the dtype of the key column [c]. *)
Definition key_column (c : column) (gs : list key) : column :=
  match c with
  | ObjCol _ =>
      ObjCol (map (fun k => match k with KStr s => Some s | KNum _ => None end) gs)
  | _ =>
      NumCol (map (fun k => match k with KNum q => Some q | KStr _ => None end) gs)
  end.

(** [df.groupby(by).agg({c1: f1, ...}).reset_index()]; also
    [df.groupby(by)[[c1, ...]].sum().reset_index()] with every [fi] the
    sum. *)
Definition groupby_agg (df : DataFrame) (by_ : string)
           (aggs : list (string * aggfunc)) : M DataFrame :=
  kc <- getitem df by_ ;;
  ks <- keys_of kc ;;
  cols <- mapM (fun na => c <- getitem df (fst na) ;;
                          r <- agg (snd na) ks c ;;
                          ret (fst na, r)) aggs ;;
  ret ((by_, key_column kc (group_keys ks)) :: cols).

End GroupBy.
Import GroupBy.

(** ** Charts and tables handed to the page *)

Module Plot.

(** What [px.choropleth] takes from the frame when the figure is built. *)
Record Choropleth := {
  ch_locations : column;
  ch_color : column;
  ch_hover_name : column;
  ch_hover_data : column;
  ch_title : string
}.

Record Pie := {
  pie_names : column;
  pie_values : column;
  pie_title : string
}.

(** [dash_table.DataTable(data=df.to_dict("records"), columns=...)] *)
Record DataTable := {
  dt_data : DataFrame;
  dt_columns : list string
}.

Definition px_column (df : DataFrame) (arg name : string) : M column :=
  match lookup df name with
  | Some c => ret c
  | None => raise (ValueError ("Value of '" ++ arg ++ "' is not the name of a column in 'data_frame'")%string)
  end.

Definition choropleth (df : DataFrame) (locations color hover_name hover_data title : string)
  : M Choropleth :=
  l <- px_column df "locations" locations ;;
  c <- px_column df "color" color ;;
  h <- px_column df "hover_name" hover_name ;;
  d <- px_column df "hover_data" hover_data ;;
  ret {| ch_locations := l; ch_color := c; ch_hover_name := h;
         ch_hover_data := d; ch_title := title |}.

Definition pie (df : DataFrame) (names values title : string) : M Pie :=
  n <- px_column df "names" names ;;
  v <- px_column df "values" values ;;
  ret {| pie_names := n; pie_values := v; pie_title := title |}.

Definition data_table (df : DataFrame) : DataTable :=
  {| dt_data := df; dt_columns := columns df |}.

End Plot.
Import Plot.

(** ** The dashboard *)

Module Dashboard.

(** [os.path.join(a, b)] *)
Definition path_join (a b : string) : string := (a ++ "/" ++ b)%string.

(** [d[k]] on a dict kept as its items. *)
Fixpoint dict_get (d : list (string * string)) (k : string) : M string :=
  match d with
  | [] => raise (KeyError k)
  | (k', v) :: d' => if String.eqb k' k then ret v else dict_get d' k
  end.

Definition nitrogen_loss_labels : list (string * string) :=
  [ ("nitrogen_loss1", "N input not taken by crop");
    ("nitrogen_loss2", "Crop processing N loss");
    ("nitrogen_loss3", "Feed waste & manure loss");
    ("nitrogen_loss4", "Slaughtering/milking/laying N loss");
    ("nitrogen_loss5", "Food processing N loss");
    ("nitrogen_loss6", "Food N waste");
    ("nitrogen_loss7", "Human N waste") ].

Definition crop_loss_columns : list string :=
  ["nitrogen_loss1"; "nitrogen_loss2"].

Definition animal_loss_columns : list string :=
  ["nitrogen_loss3"; "nitrogen_loss4"; "nitrogen_loss5"; "nitrogen_loss6";
   "nitrogen_loss7"].

(** The new name of one column (lines 47 and 53). *)
Definition rename_column (col : string) : string :=
  if Str.startswith col "selfloop"
  then Str.replace col "selfloop" "within_county"
  else col.

(** [df.columns = [rename_column(col) for col in df.columns]] *)
Definition rename_selfloop (df : DataFrame) : M DataFrame :=
  set_columns df (map rename_column (columns df)).

(** [df['total_nitrogen_loss'] = df[cols].sum(axis=1)] *)
Definition add_total_loss (df : DataFrame) (cols : list string) : M DataFrame :=
  sel <- getitems df cols ;;
  t <- sum_axis1 sel ;;
  ret (setitem df "total_nitrogen_loss" (NumCol t)).

Definition total_columns : list string :=
  ["FIPS"; "county"; "total_nitrogen_loss"].

(** Lines 66 to 72: the two reduced tables, one below the other, grouped
    by FIPS. *)
Definition combine_totals (crop animal : DataFrame) : M DataFrame :=
  a <- getitems crop total_columns ;;
  b <- getitems animal total_columns ;;
  both <- concat a b ;;
  groupby_agg both "FIPS" [("total_nitrogen_loss", AggSum); ("county", AggFirst)].

(** The two frames the callback writes to: [crop_df] and [animal_df]. *)
Definition frames : Type := (DataFrame * DataFrame)%type.

Inductive which := Crop | Animal.

Definition deref (w : which) (st : frames) : DataFrame :=
  match w with Crop => fst st | Animal => snd st end.

Definition assign (w : which) (df : DataFrame) (st : frames) : frames :=
  match w with Crop => (df, snd st) | Animal => (fst st, df) end.

(** [df["log_" + col] = np.log1p(df[col])] on the frame [w] refers to. *)
Definition add_log (w : which) (col : string) (st : frames) : M frames :=
  c <- getitem (deref w st) col ;;
  lg <- np_log1p c ;;
  ret (assign w (setitem (deref w st) ("log_" ++ col)%string lg) st).

(** Lines 155 to 180, from index [i] on. *)
Fixpoint loss_maps (i : nat) (items : list (string * string)) (st : frames)
  : M (list Choropleth * frames) :=
  match items with
  | [] => ret ([], st)
  | (col, label) :: rest =>
      let w := if (i <? 2)%nat then Crop else Animal in
      let title := ("Nitrogen Loss Stage " ++ Str.of_nat (i + 1) ++ ": " ++ label)%string in
      st1 <- add_log w col st ;;
      fig <- choropleth (deref w st1) "FIPS" ("log_" ++ col)%string "county" col title ;;
      r <- loss_maps (S i) rest st1 ;;
      ret (fig :: fst r, snd r)
  end.

(** Lines 182 to 206. *)
Definition total_loss_map (total_nitrogen_df : DataFrame) : M Choropleth :=
  c <- getitem total_nitrogen_df "total_nitrogen_loss" ;;
  lg <- np_log1p c ;;
  choropleth (setitem total_nitrogen_df "log_total_nitrogen_loss" lg)
             "FIPS" "log_total_nitrogen_loss" "county" "total_nitrogen_loss"
             "Total Nitrogen Loss by County".

(** [round(s.div(10 ** 6), 2).tolist()] *)
Definition table_values (sums : list (option Q)) : list (option Q) :=
  map (option_map (fun q => Round.round2 (Round.div_1e6 q))) sums.

(** Lines 209 to 223.  The column sums are taken once here; the program
    takes them again for the table, with the same result.  The two
    quotients of the grand total are exact here and float64 in the
    program. *)
Definition loss_table (crop_df animal_df : DataFrame) : M DataFrame :=
  c <- getitems crop_df crop_loss_columns ;;
  crop_sums <- sum_axis0 c ;;
  a <- getitems animal_df animal_loss_columns ;;
  animal_sums <- sum_axis0 a ;;
  let total_nitrogen_loss :=
    Round.round2 (Round.div_1e6 (nansum crop_sums) + Round.div_1e6 (nansum animal_sums)) in
  ret [ ("Nitrogen Loss ID",
          ObjCol (map (fun i => Some ("Nitrogen Loss Stage " ++ Str.of_nat i)%string) (seq 1 7)
                  ++ [Some "Total Nitrogen Loss"]));
        ("Nitrogen Loss Type",
          ObjCol (map (fun l => Some (snd l)) nitrogen_loss_labels
                  ++ [Some "Total Nitrogen Loss"]));
        ("Total (K Tons)",
          NumCol (table_values crop_sums ++ table_values animal_sums
                  ++ [Some total_nitrogen_loss])) ].

Definition stage_names : list string :=
  ["Crop Processing"; "Animal Nitrogen"; "Meat Nitrogen"].

(** [stage_dfs]: the second and third entry are the same frame. *)
Definition stage_dfs : list which := [Crop; Animal; Animal].

Definition stage_columns : list (list string) :=
  [ ["import_crop_processing_nitrogen"; "export_crop_processing_nitrogen";
     "within_county_crop_processing_nitrogen"];
    ["import_animal_nitrogen"; "export_animal_nitrogen";
     "within_county_animal_nitrogen"];
    ["import_meat_nitrogen"; "export_meat_nitrogen";
     "within_county_meat_nitrogen"] ].

(** Lines 247 to 277: the maps of one stage. *)
Fixpoint stage_maps (w : which) (cols : list string) (st : frames)
  : M (list Choropleth * frames) :=
  match cols with
  | [] => ret ([], st)
  | col :: rest =>
      st1 <- add_log w col st ;;
      fig <- choropleth (deref w st1) "FIPS" ("log_" ++ col)%string "county" col
                        (Str.title (Str.replace col "_" " ")) ;;
      r <- stage_maps w rest st1 ;;
      ret (fig :: fst r, snd r)
  end.

(** [t[cols] = round(t[cols].div(10 ** 6), 2)] *)
Fixpoint convert_columns (t : DataFrame) (cols : list string) : M DataFrame :=
  match cols with
  | [] => ret t
  | col :: rest =>
      c <- getitem t col ;;
      r <- div_round2 c ;;
      convert_columns (setitem t col r) rest
  end.

Definition table_header : list string :=
  ["Commodity"; "Import (K Tons)"; "Export (K Tons)"; "Within County (K Tons)"].

(** Lines 279 to 289: the commodity table of one stage. *)
Definition commodity_table (stage_df : DataFrame) (cols : list string) : M DataFrame :=
  table_data <- groupby_agg stage_df "commodity" (map (fun c => (c, AggSum)) cols) ;;
  table_data <- convert_columns table_data cols ;;
  names <- getitem table_data "commodity" ;;
  names <- str_title_replace names ;;
  set_columns (setitem table_data "commodity" names) table_header.

Record StageSection := {
  sec_maps : list Choropleth;
  sec_table : DataTable
}.

(** Lines 243 to 299. *)
Fixpoint stage_sections (stages : list (which * list string)) (st : frames)
  : M (list StageSection * frames) :=
  match stages with
  | [] => ret ([], st)
  | (w, cols) :: rest =>
      r <- stage_maps w cols st ;;
      t <- commodity_table (deref w (snd r)) cols ;;
      r' <- stage_sections rest (snd r) ;;
      ret ({| sec_maps := fst r; sec_table := data_table t |} :: fst r', snd r')
  end.

(** Lines 303 to 308. *)
Definition format_commodity (df : DataFrame) : M DataFrame :=
  if has_column df "Commodity" then
    c <- getitem df "Commodity" ;;
    c' <- str_title_replace c ;;
    ret (setitem df "Commodity" c')
  else ret df.

Record InventorySection := {
  inventory_chart : Pie;
  area_chart : Pie;
  inventory_table : DataTable;
  area_table : DataTable
}.

(** Lines 303 to 342. *)
Definition inventory_harvest (inventory_df area_df : DataFrame) : M InventorySection :=
  inventory_df <- format_commodity inventory_df ;;
  area_df <- format_commodity area_df ;;
  ic <- pie inventory_df "Commodity" "Total Inventory (head)" "Inventory by Commodity" ;;
  ac <- pie area_df "Commodity" "Total Harvested Area (Acre)" "Harvested Area by Commodity" ;;
  let area_df := Frame.round area_df in
  let inventory_df := Frame.round inventory_df in
  ret {| inventory_chart := ic; area_chart := ac;
         inventory_table := data_table inventory_df;
         area_table := data_table area_df |}.

(** The five outputs of the callback. *)
Record Outputs := {
  chloropleth_maps : list Choropleth;
  nitrogen_loss_table : DataTable;
  import_export_tables : list StageSection;
  import_export_maps : list Choropleth;
  inventory_harvest_section : InventorySection
}.

Section WithFiles.

(** The directory of the script, and [pd.read_csv] on the files under
    it. *)
Variable base_dir : string.
Variable read_csv : string -> M DataFrame.

Definition data_paths : list (string * string) :=
  [ ("2017", path_join (path_join base_dir "data") "2017");
    ("2030", path_join (path_join base_dir "data") "2030");
    ("2050", path_join (path_join base_dir "data") "2050") ].

Definition load_data (year : string)
  : M (DataFrame * DataFrame * DataFrame * DataFrame * DataFrame * DataFrame) :=
  path <- dict_get data_paths year ;;
  nitrogen_df <- read_csv (path_join path "nitrogen_losses_summary.csv") ;;
  area_df <- read_csv (path_join path "harvested_area_by_commodity.csv") ;;
  inventory_df <- read_csv (path_join path "inventory_by_commodity.csv") ;;
  crop_processing_nitrogen_df <- read_csv (path_join path "crop_processing_nitrogen.csv") ;;
  animal_stage_nitrogen_df <- read_csv (path_join path "animal_stage_nitrogen.csv") ;;
  crop_processing_nitrogen_df <- rename_selfloop crop_processing_nitrogen_df ;;
  animal_stage_nitrogen_df <- rename_selfloop animal_stage_nitrogen_df ;;
  crop_processing_nitrogen_df <- add_total_loss crop_processing_nitrogen_df crop_loss_columns ;;
  animal_stage_nitrogen_df <- add_total_loss animal_stage_nitrogen_df animal_loss_columns ;;
  total_nitrogen_df <- combine_totals crop_processing_nitrogen_df animal_stage_nitrogen_df ;;
  ret (nitrogen_df, area_df, inventory_df, crop_processing_nitrogen_df,
       animal_stage_nitrogen_df, total_nitrogen_df).

Definition update_dashboard (selected_year : string) : M Outputs :=
  '(nitrogen_df, area_df, inventory_df, crop_df, animal_df, total_nitrogen_df)
    <- load_data selected_year ;;
  r <- loss_maps 0 nitrogen_loss_labels (crop_df, animal_df) ;;
  total_loss_fig <- total_loss_map total_nitrogen_df ;;
  let maps := fst r ++ [total_loss_fig] in
  t <- loss_table (fst (snd r)) (snd (snd r)) ;;
  s <- stage_sections (combine stage_dfs stage_columns) (snd r) ;;
  inv <- inventory_harvest inventory_df area_df ;;
  ret {| chloropleth_maps := maps;
         nitrogen_loss_table := data_table t;
         import_export_tables := fst s;
         import_export_maps := [];
         inventory_harvest_section := inv |}.

End WithFiles.

End Dashboard.
Import Dashboard.

(** ** Synthetic inputs *)

Module Synthetic.

Definition num (z : Z) : option Q := Some (inject_Z z).

(** A crop-stage table of two rows whose commodity keys differ only in
    case. *)
Definition crop_rows : DataFrame :=
  [ ("FIPS", NumCol [num 24001; num 24003]);
    ("county", ObjCol [Some "Allegany"; Some "Anne Arundel"]);
    ("commodity", ObjCol [Some "corn_grain"; Some "CORN_GRAIN"]);
    ("nitrogen_loss1", NumCol [num 1000000; num 1000000]);
    ("nitrogen_loss2", NumCol [num 1000000; num 1000000]);
    ("import_crop_processing_nitrogen", NumCol [num 10; num 5]);
    ("export_crop_processing_nitrogen", NumCol [num 10000000; num 5000000]);
    ("selfloop_crop_processing_nitrogen", NumCol [num 10; num 5]) ].

(** An animal-stage table of two rows; a column name with the self-loop
    word twice, and one with the word not at its start. *)
Definition animal_rows : DataFrame :=
  [ ("FIPS", NumCol [num 24003; num 24005]);
    ("county", ObjCol [Some "Anne Arundel County"; Some "Baltimore"]);
    ("commodity", ObjCol [Some "beef_cattle"; Some "beef_cattle"]);
    ("nitrogen_loss3", NumCol [num 2000000; num 2000000]);
    ("nitrogen_loss4", NumCol [num 2000000; num 2000000]);
    ("nitrogen_loss5", NumCol [num 2000000; num 2000000]);
    ("nitrogen_loss6", NumCol [num 2000000; num 2000000]);
    ("nitrogen_loss7", NumCol [num 2000000; num 2000000]);
    ("import_animal_nitrogen", NumCol [num 10; None]);
    ("export_animal_nitrogen", NumCol [num 10; num 5]);
    ("selfloop_animal_nitrogen", NumCol [num 10; num 5]);
    ("import_meat_nitrogen", NumCol [num 10; num 5]);
    ("export_meat_nitrogen", NumCol [num 10; num 5]);
    ("selfloop_meat_nitrogen", NumCol [num 10; num 5]);
    ("selfloop_share_of_selfloop", NumCol [num 1; num 1]);
    ("net_selfloop", NumCol [num 0; num 0]) ].

(** The same tables with one row each. *)
Definition first_row (df : DataFrame) : DataFrame :=
  map (fun nc => (fst nc,
                  match snd nc with
                  | NumCol xs => NumCol (firstn 1 xs)
                  | ObjCol xs => ObjCol (firstn 1 xs)
                  | LogCol xs => LogCol (firstn 1 xs)
                  end)) df.

(** Tables in which every loss column sums to 4000, which is 0.004 after
    the division by [10 ** 6]. *)
Definition small_loss (cols : list string) (df : DataFrame) : DataFrame :=
  map (fun nc => if existsb (String.eqb (fst nc)) cols
                 then (fst nc, NumCol [num 1500; num 2500]) else nc) df.

Definition inventory : DataFrame :=
  [ ("Commodity", ObjCol [Some "beef_cattle"; Some "BROILERS"]);
    ("Total Inventory (head)", NumCol [Some (5 # 2); Some (1234567 # 1000)]) ].

Definition area : DataFrame :=
  [ ("Commodity", ObjCol [Some "corn_grain"; Some "soybeans"]);
    ("Total Harvested Area (Acre)", NumCol [Some (7 # 2); Some (49 # 100)]) ].

Definition summary : DataFrame :=
  [ ("nitrogen_loss", NumCol [num 1]) ].

(** [pd.read_csv] over a directory tree that holds the year 2017 only,
    with the given crop-stage and animal-stage tables. *)
Definition files (crop animal : DataFrame) (p : string) : M DataFrame :=
  if String.eqb p "/srv/app/data/2017/nitrogen_losses_summary.csv" then ret summary
  else if String.eqb p "/srv/app/data/2017/harvested_area_by_commodity.csv" then ret area
  else if String.eqb p "/srv/app/data/2017/inventory_by_commodity.csv" then ret inventory
  else if String.eqb p "/srv/app/data/2017/crop_processing_nitrogen.csv" then ret crop
  else if String.eqb p "/srv/app/data/2017/animal_stage_nitrogen.csv" then ret animal
  else raise (Raise "FileNotFoundError" p).

Definition base_dir : string := "/srv/app".

Definition two_rows : string -> M DataFrame := files crop_rows animal_rows.
Definition one_row : string -> M DataFrame :=
  files (first_row crop_rows) (first_row animal_rows).
Definition small : string -> M DataFrame :=
  files (small_loss crop_loss_columns crop_rows)
        (small_loss animal_loss_columns animal_rows).

(** The column of the loss table that holds the numbers. *)
Definition table_column (o : M Outputs) : option column :=
  match o with
  | inr out => lookup (dt_data (nitrogen_loss_table out)) "Total (K Tons)"
  | inl _ => None
  end.

(** The commodity table of the [k]-th stage. *)
Definition stage_table (o : M Outputs) (k : nat) : option DataFrame :=
  match o with
  | inr out => option_map (fun s => dt_data (sec_table s))
                          (nth_error (import_export_tables out) k)
  | inl _ => None
  end.

End Synthetic.

(** ** Faulty inputs *)

Module Faulty.

(** [df.drop(columns=[name])] *)
Definition drop_column (name : string) (df : DataFrame) : DataFrame :=
  filter (fun nc => negb (String.eqb (fst nc) name)) df.

(** The synthetic year with a crop-stage file that has no nitrogen_loss2
    column. *)
Definition no_loss2 : string -> M DataFrame :=
  Synthetic.files (drop_column "nitrogen_loss2" Synthetic.crop_rows)
                  Synthetic.animal_rows.

(** An inventory file whose label column has another name. *)
Definition inventory_unlabelled : DataFrame :=
  [ ("Animal", ObjCol [Some "beef_cattle"; Some "BROILERS"]);
    ("Total Inventory (head)", NumCol [Some (5 # 2); Some (1234567 # 1000)]) ].

End Faulty.

(** ** Tables with missing entries *)

Module Sparse.

(** A crop-stage table with missing and zero loss entries, a county name
    that is missing, and the key 24003 on two rows. *)
Definition crop_rows : DataFrame :=
  [ ("FIPS", NumCol [Synthetic.num 24001; Synthetic.num 24003; Synthetic.num 24003;
                     Synthetic.num 24005]);
    ("county", ObjCol [Some "Allegany"; None; Some "Anne Arundel"; Some "Baltimore"]);
    ("commodity", ObjCol [Some "corn_grain"; Some "wheat"; None; Some "wheat"]);
    ("nitrogen_loss1", NumCol [Synthetic.num 5; None; Synthetic.num 0; None]);
    ("nitrogen_loss2", NumCol [None; None; Synthetic.num 7; Synthetic.num 3]);
    ("import_crop_processing_nitrogen",
      NumCol [Synthetic.num 1230000; Synthetic.num 2345000; Synthetic.num 9000000; None]);
    ("export_crop_processing_nitrogen",
      NumCol [Synthetic.num 0; None; Synthetic.num 1; Synthetic.num 4000]);
    ("selfloop_crop_processing_nitrogen",
      NumCol [None; Synthetic.num 6000; Synthetic.num 1; Synthetic.num 14999]) ].

(** An animal-stage table that shares the key 24003 and has a row of
    missing losses. *)
Definition animal_rows : DataFrame :=
  [ ("FIPS", NumCol [Synthetic.num 24003; Synthetic.num 24007]);
    ("county", ObjCol [Some "Anne Arundel County"; Some "Calvert"]);
    ("commodity", ObjCol [Some "beef_cattle"; Some "beef_cattle"]);
    ("nitrogen_loss3", NumCol [Synthetic.num 1; None]);
    ("nitrogen_loss4", NumCol [None; None]);
    ("nitrogen_loss5", NumCol [Synthetic.num 0; None]);
    ("nitrogen_loss6", NumCol [Synthetic.num 2; None]);
    ("nitrogen_loss7", NumCol [None; None]);
    ("import_animal_nitrogen", NumCol [Synthetic.num 10; None]);
    ("export_animal_nitrogen", NumCol [Synthetic.num 10; Synthetic.num 5]);
    ("selfloop_animal_nitrogen", NumCol [Synthetic.num 10; Synthetic.num 5]);
    ("import_meat_nitrogen", NumCol [Synthetic.num 10; Synthetic.num 5]);
    ("export_meat_nitrogen", NumCol [Synthetic.num 10; Synthetic.num 5]);
    ("selfloop_meat_nitrogen", NumCol [Synthetic.num 10; Synthetic.num 5]) ].

Definition files : string -> M DataFrame := Synthetic.files crop_rows animal_rows.

End Sparse.

(** ** Reading the outputs *)

Module Observe.

(** The sum of a list of numbers. *)
Definition sumQ (xs : list Q) : Q := fold_right Qplus 0 xs.

(** A raw sum as the tables show it: divided by [10 ** 6], two decimals. *)
Definition displayed (q : Q) : Q := Round.round2 (Round.div_1e6 q).

(** Two lists of table cells hold the same numbers. *)
Definition same_values (xs ys : list (option Q)) : Prop :=
  Forall2 (fun x y => match x, y with
                      | Some p, Some q => p == q
                      | None, None => True
                      | _, _ => False
                      end) xs ys.

(** The label shown for a commodity key. *)
Definition label (k : key) : option string :=
  match k with
  | KStr s => Some (Str.replace (Str.title s) "_" " ")
  | KNum _ => None
  end.

(** The color column of a map is the log-scale of the measure it shows. *)
Definition log_colored (fig : Choropleth) : Prop :=
  exists xs, ch_hover_data fig = NumCol xs /\ ch_color fig = LogCol xs.

(** The entries of [xs] on the rows that have a key, in row order. *)
Fixpoint keyed {A} (ks : list (option key)) (xs : list A) : list A :=
  match ks, xs with
  | Some _ :: ks', x :: xs' => x :: keyed ks' xs'
  | None :: ks', _ :: xs' => keyed ks' xs'
  | _, _ => []
  end.

(** The order of the group keys, as a relation. *)
Definition key_le (a b : key) : Prop := key_leb a b = true.

(** The character [c] occurs in [s]. *)
Fixpoint has_char (c : ascii) (s : string) : bool :=
  match s with
  | EmptyString => false
  | String c' s' => Ascii.eqb c c' || has_char c s'
  end.


(** The sum of the entries of a column that are not missing. *)
Definition column_sum (xs : list (option Q)) : Q :=
  sumQ (map (fun o => match o with Some x => x | None => 0 end) xs).

(** An entry is missing or a whole number. *)
Definition whole (o : option Q) : Prop :=
  match o with
  | Some x => exists z : Z, x == inject_Z z
  | None => True
  end.

(** The sum of the absolute values of the entries. *)
Definition magnitude (xs : list (option Q)) : Q :=
  sumQ (map (fun o => match o with Some x => Qabs x | None => 0 end) xs).


(** Numbers on which the float64 and int64 arithmetic of the program is
    exact: whole numbers whose absolute values add up to [2 ^ 48] at
    most. *)
Definition exact_numbers (xs : list (option Q)) : Prop :=
  Forall whole xs /\ magnitude xs <= 281474976710656.

(** [d] is a hundredth nearest to [x]: a whole number of hundredths at
    distance 0.005 at most (on a tie, either neighbour). *)
Definition hundredth_near (d x : Q) : Prop :=
  (exists z : Z, d == inject_Z z / 100) /\ x - (1 # 200) <= d /\ d <= x + (1 # 200).


(** The entries of [xs] on the rows whose string in [names] is [s]. *)
Definition rows_named {A} (s : string) (names : list (option string)) (xs : list A)
  : list A :=
  map snd (filter (fun p => match fst p with
                            | Some s' => String.eqb s s'
                            | None => false
                            end) (combine names xs)).


(** The five files of a year, in the order the loader reads them. *)
Definition year_files (path : string) : list string :=
  map (path_join path)
      [ "nitrogen_losses_summary.csv"; "harvested_area_by_commodity.csv";
        "inventory_by_commodity.csv"; "crop_processing_nitrogen.csv";
        "animal_stage_nitrogen.csv" ].

End Observe.
Import Observe.

(** ** The page layout *)

Module Layout.

(** Line 98: the options of the year dropdown, a label and a value per key
    of the path table. *)
Definition dropdown_options (base_dir : string) : list (string * string) :=
  map (fun kv => (fst kv, fst kv)) (data_paths base_dir).

(** Line 99: the year selected when the page opens. *)
Definition dropdown_value : string := "2017".

End Layout.
Import Layout.

(** * Properties *)

(** ** The error monad *)

Lemma bind_inr {A B} (m : M A) (k : A -> M B) (b : B) :
  bind m k = inr b -> exists a, m = inr a /\ k a = inr b.
Proof. destruct m as [e | a]; simpl; [discriminate | eauto]. Qed.

Lemma bind_inl {A B} (m : M A) (k : A -> M B) (e : exn) :
  m = inl e -> bind m k = inl e.
Proof. intros ->; reflexivity. Qed.

(** Take apart a hypothesis saying that a sequence of steps returned. *)
Ltac inv_ret H :=
  repeat match type of H with
    | bind _ _ = inr _ =>
        let a := fresh "v" in
        let E := fresh "E" in
        apply bind_inr in H; destruct H as (a & E & H)
    | ret _ = inr _ => unfold ret in H
    | raise _ = inr _ => discriminate H
    | inl _ = inr _ => discriminate H
    end.

Lemma mapM_inr {A B} (f : A -> M B) (xs : list A) (ys : list B) :
  mapM f xs = inr ys -> Forall2 (fun x y => f x = inr y) xs ys.
Proof.
  revert ys; induction xs as [| x xs IH]; simpl; intros ys H.
  - injection H as <-; constructor.
  - inv_ret H. injection H as <-. constructor; auto.
Qed.

(** ** Strings *)

Lemma prefix_split (p s : string) :
  String.prefix p s = true -> exists rest, s = (p ++ rest)%string.
Proof.
  revert s; induction p as [| a p IH]; intros s H.
  - exists s; reflexivity.
  - destruct s as [| b s]; simpl in H; [discriminate |].
    destruct (ascii_dec a b) as [-> | _]; [| discriminate].
    destruct (IH _ H) as [rest ->]. exists rest; reflexivity.
Qed.

Lemma prefix_append (p rest : string) : String.prefix p (p ++ rest) = true.
Proof.
  induction p as [| a p IH]; simpl.
  - destruct rest; reflexivity.
  - destruct (ascii_dec a a); [assumption | congruence].
Qed.

Lemma replace_from_skip (old new t rest : string) :
  Str.replace_from old new (String.length t) (t ++ rest)
  = Str.replace_from old new 0 rest.
Proof.
  induction t as [| c t IH]; simpl; [| assumption].
  destruct rest; reflexivity.
Qed.

(** An occurrence of [old] at the start is replaced, and the scan goes on
    behind it. *)
Lemma replace_at_start (c : ascii) (t new rest : string) :
  Str.replace (String c t ++ rest) (String c t) new
  = (new ++ Str.replace rest (String c t) new)%string.
Proof.
  unfold Str.replace.
  change (String c t ++ rest)%string with (String c (t ++ rest)).
  cbn [Str.replace_from].
  change (String c (t ++ rest)) with (String c t ++ rest)%string.
  rewrite prefix_append.
  change (String.length (String c t) - 1)%nat with (String.length t - 0)%nat.
  rewrite Nat.sub_0_r, replace_from_skip. reflexivity.
Qed.

Lemma rename_column_other (col : string) :
  Str.startswith col "selfloop" = false -> rename_column col = col.
Proof. unfold rename_column; intros ->; reflexivity. Qed.

Lemma rename_column_selfloop (rest : string) :
  rename_column ("selfloop" ++ rest)
  = ("within_county" ++ Str.replace rest "selfloop" "within_county")%string.
Proof.
  unfold rename_column, Str.startswith.
  rewrite prefix_append. apply replace_at_start.
Qed.

Lemma rename_column_clean (col : string) :
  Str.startswith (rename_column col) "selfloop" = false.
Proof.
  destruct (Str.startswith col "selfloop") eqn:E.
  - destruct (prefix_split _ _ E) as [rest ->].
    rewrite rename_column_selfloop. reflexivity.
  - rewrite rename_column_other; assumption.
Qed.

(** ** Frames *)

Lemma getitem_inr (df : DataFrame) (name : string) (c : column) :
  getitem df name = inr c <-> lookup df name = Some c.
Proof.
  unfold getitem. destruct (lookup df name); split; intros H;
    try discriminate; injection H as <-; reflexivity.
Qed.

Lemma getitems_inr (df sel : DataFrame) (names : list string) :
  getitems df names = inr sel ->
  columns sel = names /\
  Forall2 (fun n nc => fst nc = n /\ lookup df n = Some (snd nc)) names sel.
Proof.
  unfold getitems; intros H. apply mapM_inr in H.
  induction H as [| n [n' c] names sel H _ IH]; simpl.
  - split; constructor.
  - inv_ret H. injection H as -> ->. apply getitem_inr in E.
    destruct IH as [IH1 IH2]. split; [f_equal; exact IH1 |].
    constructor; auto.
Qed.

Lemma has_column_lookup (df : DataFrame) (name : string) :
  has_column df name = false <-> lookup df name = None.
Proof.
  unfold has_column, columns.
  induction df as [| [n c] df IH]; simpl; [tauto |].
  rewrite (String.eqb_sym name n).
  destruct (String.eqb n name); simpl; [split; discriminate | exact IH].
Qed.

Lemma lookup_app (df df' : DataFrame) (name : string) :
  lookup (df ++ df') name
  = match lookup df name with Some c => Some c | None => lookup df' name end.
Proof.
  induction df as [| [n c] df IH]; simpl; [reflexivity |].
  destruct (String.eqb n name); [reflexivity | exact IH].
Qed.

Lemma lookup_overwrite (df : DataFrame) (name other : string) (c : column) :
  lookup (map (fun nc => if String.eqb (fst nc) name then (fst nc, c) else nc) df) other
  = if String.eqb name other
    then match lookup df other with Some _ => Some c | None => None end
    else lookup df other.
Proof.
  induction df as [| [n c0] df IH]; simpl.
  - destruct (String.eqb name other); reflexivity.
  - destruct (String.eqb n name) eqn:E1; simpl.
    + apply String.eqb_eq in E1; subst n.
      destruct (String.eqb name other); [reflexivity | exact IH].
    + destruct (String.eqb n other) eqn:E2.
      * apply String.eqb_eq in E2; subst n. rewrite String.eqb_sym, E1. reflexivity.
      * exact IH.
Qed.

(** A column that was just written is read back. *)
Lemma lookup_setitem_same (df : DataFrame) (name : string) (c : column) :
  lookup (setitem df name c) name = Some c.
Proof.
  unfold setitem. destruct (has_column df name) eqn:E.
  - rewrite lookup_overwrite, String.eqb_refl.
    destruct (lookup df name) eqn:L; [reflexivity |].
    apply has_column_lookup in L. congruence.
  - apply has_column_lookup in E.
    rewrite lookup_app, E. simpl. rewrite String.eqb_refl. reflexivity.
Qed.

(** Writing one column leaves the columns of other names as they were. *)
Lemma lookup_setitem_other (df : DataFrame) (name other : string) (c : column) :
  name <> other -> lookup (setitem df name c) other = lookup df other.
Proof.
  intros N. apply String.eqb_neq in N.
  unfold setitem. destruct (has_column df name).
  - rewrite lookup_overwrite, N. reflexivity.
  - rewrite lookup_app. simpl. rewrite N. destruct (lookup df other); reflexivity.
Qed.

Lemma columns_setitem (df : DataFrame) (name : string) (c : column) :
  columns (setitem df name c)
  = if has_column df name then columns df else columns df ++ [name].
Proof.
  unfold setitem, columns. destruct (has_column df name).
  - rewrite map_map. apply map_ext. intros [n c0]; simpl.
    destruct (String.eqb n name); reflexivity.
  - rewrite map_app. reflexivity.
Qed.


Lemma rename_selfloop_inr (df : DataFrame) :
  rename_selfloop df = inr (map (fun nc => (rename_column (fst nc), snd nc)) df).
Proof.
  unfold rename_selfloop, set_columns, columns.
  rewrite !length_map, Nat.eqb_refl. unfold ret. f_equal.
  induction df as [| [n c] df IH]; simpl; [reflexivity | f_equal; exact IH].
Qed.

Lemma as_num_inr (c : column) (xs : list (option Q)) :
  as_num c = inr xs <-> c = NumCol xs.
Proof.
  destruct c; simpl; split; intros H; try discriminate;
    injection H as <-; reflexivity.
Qed.

(** The row sums: one entry per row, never missing. *)
Lemma sum_axis1_inr (df : DataFrame) (t : list (option Q)) :
  sum_axis1 df = inr t ->
  exists cs,
    Forall2 (fun nc xs => snd nc = NumCol xs) df cs /\
    List.length t = len df /\
    forall i, (i < len df)%nat ->
      nth_error t i = Some (Some (nansum (map (fun xs => nth i xs None) cs))).
Proof.
  unfold sum_axis1; intros H. inv_ret H. injection H as <-.
  exists v. split; [| split].
  - apply mapM_inr in E. induction E; constructor; auto.
    apply as_num_inr; assumption.
  - rewrite length_map, length_seq. reflexivity.
  - intros i Hi. rewrite nth_error_map, nth_error_seq.
    apply Nat.ltb_lt in Hi. rewrite Hi. reflexivity.
Qed.

(** ** The loader *)

Lemma load_data_inr (base : string) (read : string -> M DataFrame) (year : string)
      (n a i crop animal t : DataFrame) :
  load_data base read year = inr (n, a, i, crop, animal, t) ->
  exists path crop_raw animal_raw crop1 animal1,
    dict_get (data_paths base) year = inr path /\
    read (path_join path "nitrogen_losses_summary.csv") = inr n /\
    read (path_join path "harvested_area_by_commodity.csv") = inr a /\
    read (path_join path "inventory_by_commodity.csv") = inr i /\
    read (path_join path "crop_processing_nitrogen.csv") = inr crop_raw /\
    read (path_join path "animal_stage_nitrogen.csv") = inr animal_raw /\
    rename_selfloop crop_raw = inr crop1 /\
    rename_selfloop animal_raw = inr animal1 /\
    add_total_loss crop1 crop_loss_columns = inr crop /\
    add_total_loss animal1 animal_loss_columns = inr animal /\
    combine_totals crop animal = inr t.
Proof.
  unfold load_data; intros H. inv_ret H. injection H as <- <- <- <- <- <-.
  repeat eexists; eassumption.
Qed.

Lemma add_total_loss_inr (df df' : DataFrame) (cols : list string) :
  add_total_loss df cols = inr df' ->
  ~ In "total_nitrogen_loss" cols ->
  exists cs t,
    df' = setitem df "total_nitrogen_loss" (NumCol t) /\
    Forall2 (fun n xs => lookup df' n = Some (NumCol xs)) cols cs /\
    List.length t = match cs with [] => 0%nat | xs :: _ => List.length xs end /\
    forall r, (r < List.length t)%nat ->
      nth_error t r = Some (Some (nansum (map (fun xs => nth r xs None) cs))).
Proof.
  unfold add_total_loss; intros H N. inv_ret H. injection H as <-.
  rename v into sel, v0 into t.
  apply getitems_inr in E as [_ Hsel].
  apply sum_axis1_inr in E0 as (cs & Hcs & Hlen & Hrow).
  exists cs, t. split; [reflexivity |]. split; [| split].
  - clear Hlen Hrow. revert cs Hcs N.
    induction Hsel as [| name [n0 c] cols sel [Hn Hl] _ IH]; intros cs Hcs N;
      inversion Hcs; subst; constructor.
    + simpl in *. subst c. rewrite lookup_setitem_other; [assumption |].
      intros Heq; apply N; left; symmetry; exact Heq.
    + apply IH; [assumption |]. intros HIn; apply N; right; exact HIn.
  - rewrite Hlen. destruct Hcs as [| [n0 c] xs sel' cs' Hx _]; [reflexivity |].
    simpl in *. subst c. reflexivity.
  - intros r Hr. apply Hrow. rewrite <- Hlen. exact Hr.
Qed.

Lemma columns_renamed (df df' : DataFrame) :
  rename_selfloop df = inr df' -> columns df' = map rename_column (columns df).
Proof.
  rewrite rename_selfloop_inr. intros H; injection H as <-.
  unfold columns. rewrite !map_map. reflexivity.
Qed.

Lemma columns_add_total_loss (df df' : DataFrame) (cols : list string) :
  add_total_loss df cols = inr df' ->
  columns df' = columns df \/ columns df' = columns df ++ ["total_nitrogen_loss"].
Proof.
  unfold add_total_loss; intros H. inv_ret H. injection H as <-.
  rewrite columns_setitem. destruct (has_column df _); auto.
Qed.

(** C4, as the code has it: a column name that begins with "selfloop" has
    every occurrence of that word replaced by "within_county", the leading
    one and any later one; a name that does not begin with it is kept
    whole, also when the word occurs further on.  The loaded crop-stage
    and animal-stage tables carry the renamed names of the files' columns
    (and the added total column), none of which begins with "selfloop". *)
Theorem load_data_renames_selfloop
        (base : string) (read : string -> M DataFrame) (year : string)
        (n a i crop animal t : DataFrame) :
  load_data base read year = inr (n, a, i, crop, animal, t) ->
  (exists path crop_raw animal_raw,
      dict_get (data_paths base) year = inr path /\
      read (path_join path "crop_processing_nitrogen.csv") = inr crop_raw /\
      read (path_join path "animal_stage_nitrogen.csv") = inr animal_raw /\
      (columns crop = map rename_column (columns crop_raw) \/
       columns crop = map rename_column (columns crop_raw) ++ ["total_nitrogen_loss"]) /\
      (columns animal = map rename_column (columns animal_raw) \/
       columns animal = map rename_column (columns animal_raw) ++ ["total_nitrogen_loss"])) /\
  Forall (fun col => Str.startswith col "selfloop" = false)
         (columns crop ++ columns animal) /\
  (forall col, Str.startswith col "selfloop" = false -> rename_column col = col) /\
  (forall rest,
      rename_column ("selfloop" ++ rest)
      = ("within_county" ++ Str.replace rest "selfloop" "within_county")%string).
Proof.
  intros H.
  apply load_data_inr in H
    as (path & crop_raw & animal_raw & crop1 & animal1 & Hp & _ & _ & _ &
        Hc & Ha & Hrc & Hra & Htc & Hta & _).
  apply columns_renamed in Hrc, Hra.
  apply columns_add_total_loss in Htc, Hta.
  rewrite Hrc in Htc. rewrite Hra in Hta.
  assert (Hclean : forall l, Forall (fun col => Str.startswith col "selfloop" = false)
                                    (map rename_column l)).
  { intros l. apply Forall_forall. intros x Hx. apply in_map_iff in Hx as (y & <- & _).
    apply rename_column_clean. }
  split; [| split; [| split]].
  - exists path, crop_raw, animal_raw. auto.
  - apply Forall_app. split.
    + destruct Htc as [-> | ->]; [apply Hclean |].
      apply Forall_app; split; [apply Hclean | repeat constructor].
    + destruct Hta as [-> | ->]; [apply Hclean |].
      apply Forall_app; split; [apply Hclean | repeat constructor].
  - exact rename_column_other.
  - exact rename_column_selfloop.
Qed.

(** C4, witness: the synthetic year 2017 loads. *)
Lemma load_data_renames_selfloop_witness :
  exists crop animal,
    Forall (fun col => Str.startswith col "selfloop" = false)
           (columns crop ++ columns animal) /\
    In "within_county_crop_processing_nitrogen" (columns crop) /\
    In "net_selfloop" (columns animal).
Proof.
  destruct (load_data Synthetic.base_dir Synthetic.two_rows "2017")
    as [e | [[[[[n a] i] crop] animal] t]] eqn:E; [discriminate E |].
  exists crop, animal.
  split; [exact (proj1 (proj2 (load_data_renames_selfloop _ _ _ _ _ _ _ _ _ E))) |].
  vm_compute in E. injection E as <- <- <- <- <- <-.
  split; simpl; tauto.
Defined.

(** C4, as stated, fails: a later occurrence of the word in a renamed
    column is replaced too. *)
Lemma selfloop_inside_a_name_is_replaced :
  rename_column "selfloop_share_of_selfloop" = "within_county_share_of_within_county" /\
  rename_column "selfloop_share_of_selfloop" <> "within_county_share_of_selfloop" /\
  exists n a i crop animal t,
    load_data Synthetic.base_dir Synthetic.two_rows "2017" = inr (n, a, i, crop, animal, t) /\
    In "within_county_share_of_within_county" (columns animal) /\
    ~ In "within_county_share_of_selfloop" (columns animal).
Proof.
  split; [reflexivity |]. split; [discriminate |].
  do 6 eexists. split; [vm_compute; reflexivity |].
  split; [simpl; tauto |].
  simpl. intros H.
  repeat (destruct H as [H | H]; [discriminate H |]). exact H.
Qed.





(** ** Grouping *)

Lemma insert_perm (k : key) (l : list key) : Permutation (insert k l) (k :: l).
Proof.
  induction l as [| h t IH]; simpl; [reflexivity |].
  destruct (key_leb k h); [reflexivity |].
  rewrite IH. apply perm_swap.
Qed.

Lemma sort_perm (l : list key) : Permutation (sort l) l.
Proof.
  induction l as [| h t IH]; simpl; [reflexivity |].
  rewrite insert_perm. constructor. exact IH.
Qed.

Lemma in_somes {A} (a : A) (l : list (option A)) : In a (somes l) <-> In (Some a) l.
Proof.
  induction l as [| [b |] l IH]; simpl; [tauto | |].
  - rewrite IH. split; intros [H | H]; auto; left; congruence.
  - rewrite IH. split; [auto | intros [H | H]; [discriminate | assumption]].
Qed.

(** One group per key that occurs, and no key twice. *)
Lemma group_keys_spec (ks : list (option key)) :
  NoDup (group_keys ks) /\ forall k, In k (group_keys ks) <-> In (Some k) ks.
Proof.
  unfold group_keys. split.
  - eapply Permutation_NoDup; [symmetry; apply sort_perm | apply NoDup_nodup].
  - intros k. split; intros H.
    + apply in_somes, (nodup_In key_eq_dec).
      eapply Permutation_in; [apply sort_perm | exact H].
    + eapply Permutation_in; [symmetry; apply sort_perm |].
      apply nodup_In, in_somes. exact H.
Qed.



Lemma select_absent {A} (k : key) (ks : list (option key)) (xs : list A) :
  ~ In (Some k) ks -> select k ks xs = [].
Proof.
  revert xs; induction ks as [| [k' |] ks IH]; intros [| x xs] N; simpl; try reflexivity.
  - unfold key_eqb. destruct (key_eq_dec k k') as [-> | _].
    + exfalso; apply N; left; reflexivity.
    + apply IH. intros H; apply N; right; exact H.
  - apply IH. intros H; apply N; right; exact H.
Qed.

Lemma nansum_app (xs ys : list (option Q)) :
  nansum (xs ++ ys) == nansum xs + nansum ys.
Proof.
  induction xs as [| x xs IH]; simpl; [ring | rewrite IH; ring].
Qed.

Lemma keys_of_length (c : column) (ks : list (option key)) :
  keys_of c = inr ks -> List.length ks = col_len c.
Proof.
  destruct c; simpl; intros H; try discriminate; injection H as <-;
    apply length_map.
Qed.

Lemma keys_of_concat (c1 c2 c : column) (ks : list (option key)) :
  concat_col c1 c2 = inr c -> keys_of c = inr ks ->
  exists k1 k2, keys_of c1 = inr k1 /\ keys_of c2 = inr k2 /\ ks = k1 ++ k2 /\
                key_column c = key_column c1.
Proof.
  destruct c1, c2; simpl; intros H; try discriminate; injection H as <-;
    simpl; intros K; try discriminate; injection K as <-;
    do 2 eexists; (split; [reflexivity |]); (split; [reflexivity |]);
    (split; [apply map_app | reflexivity]).
Qed.

Lemma rectangular_lookup (df : DataFrame) (name : string) (c : column) :
  rectangular df = true -> lookup df name = Some c -> col_len c = len df.
Proof.
  unfold rectangular. generalize (len df) as m. intros m H.
  induction df as [| [n0 c0] df IH]; simpl in *; [discriminate |].
  apply andb_true_iff in H as [H1 H2].
  destruct (String.eqb n0 name).
  - intros L; injection L as <-. apply Nat.eqb_eq; exact H1.
  - apply IH; exact H2.
Qed.

(** What [combine_totals] returns, column by column. *)
Lemma combine_totals_inr (crop animal t : DataFrame) :
  combine_totals crop animal = inr t ->
  exists fc fa kc ka cc ca ccat tc ta,
    lookup crop "FIPS" = Some fc /\ keys_of fc = inr kc /\
    lookup animal "FIPS" = Some fa /\ keys_of fa = inr ka /\
    lookup crop "county" = Some cc /\ lookup animal "county" = Some ca /\
    concat_col cc ca = inr ccat /\
    lookup crop "total_nitrogen_loss" = Some (NumCol tc) /\
    lookup animal "total_nitrogen_loss" = Some (NumCol ta) /\
    exists names,
      agg AggFirst (kc ++ ka) ccat = inr names /\
      t = [ ("FIPS", key_column fc (group_keys (kc ++ ka)));
            ("total_nitrogen_loss",
              NumCol (map (fun k => Some (nansum (select k (kc ++ ka) (tc ++ ta))))
                          (group_keys (kc ++ ka))));
            ("county", names) ].
Proof.
  unfold combine_totals, total_columns, getitems, getitem. simpl.
  destruct (lookup crop "FIPS") as [fc |]; [| discriminate].
  destruct (lookup crop "county") as [cc |]; [| discriminate].
  destruct (lookup crop "total_nitrogen_loss") as [tcc |]; [| discriminate].
  destruct (lookup animal "FIPS") as [fa |]; [| discriminate].
  destruct (lookup animal "county") as [ca |]; [| discriminate].
  destruct (lookup animal "total_nitrogen_loss") as [tca |]; [| discriminate].
  unfold concat. simpl.
  destruct (concat_col fc fa) as [| fcat] eqn:Ef; [discriminate |].
  destruct (concat_col cc ca) as [| ccat] eqn:Ec; [discriminate |].
  destruct (concat_col tcc tca) as [| tcat] eqn:Et; [discriminate |].
  unfold groupby_agg, getitem. simpl.
  destruct (keys_of fcat) as [| ks] eqn:Ek; [discriminate |]. simpl.
  destruct (keys_of_concat _ _ _ _ Ef Ek) as (kc & ka & Kc & Ka & -> & Kcol).
  destruct tcat as [tcat | |]; simpl; try discriminate.
  destruct tcc as [tc | |], tca as [ta | |]; simpl in Et; try discriminate.
  injection Et as <-.
  rewrite Kcol.
  destruct ccat as [xs | xs | xs] eqn:Eccat; simpl; intros H; injection H as <-;
    exists fc, fa, kc, ka, cc, ca, ccat, tc, ta; subst ccat;
    repeat (split; [first [reflexivity | assumption] |]);
    eexists; (split; [reflexivity | reflexivity]).
Qed.

Lemma first_valid_app {A} (xs ys : list (option A)) :
  first_valid (xs ++ ys)
  = match first_valid xs with Some x => Some x | None => first_valid ys end.
Proof. induction xs as [| [x |] xs IH]; simpl; auto. Qed.

Lemma nansum_column_sum (xs : list (option Q)) : nansum xs = column_sum xs.
Proof.
  unfold column_sum, sumQ, nansum.
  induction xs as [| [x |] xs IH]; simpl; rewrite ?IH; reflexivity.
Qed.







(** Show that a written-out column holds exact numbers. *)
Ltac solve_whole :=
  match goal with
  | |- whole None => exact I
  | |- whole (Some ?q) =>
      let z := eval vm_compute in (Qnum q) in
      exists z; vm_compute; reflexivity
  end.

Ltac solve_exact_numbers :=
  split; [repeat (constructor; [solve_whole |]); constructor
         | vm_compute; discriminate].


(** ** Rounding *)

Lemma rint_comp (q q' : Q) : q == q' -> Round.rint q = Round.rint q'.
Proof.
  intros E. unfold Round.rint. rewrite (Qfloor_comp _ _ E).
  assert (E' : q - inject_Z (Qfloor q') == q' - inject_Z (Qfloor q'))
    by (rewrite E; reflexivity).
  rewrite (Qcompare_comp _ _ E' _ _ (Qeq_refl (1 # 2))). reflexivity.
Qed.

(** [rint] gives an integer at distance at most one half. *)
Lemma rint_nearest (q : Q) :
  q - (1 # 2) <= inject_Z (Round.rint q) /\ inject_Z (Round.rint q) <= q + (1 # 2).
Proof.
  unfold Round.rint.
  pose proof (Qfloor_le q) as Lo. pose proof (Qlt_floor q) as Hi.
  rewrite inject_Z_plus in Hi. change (inject_Z 1) with 1 in Hi.
  destruct (Qcompare_spec (q - inject_Z (Qfloor q)) (1 # 2)) as [E | L | G];
    [destruct (Z.even (Qfloor q)) | |];
    rewrite ?inject_Z_plus; change (inject_Z 1) with 1;
    revert Lo Hi; try revert E; try revert L; try revert G;
    generalize (inject_Z (Qfloor q)) as f; intros f; intros; split; Lqa.lra.
Qed.

Lemma round2_comp (q q' : Q) : q == q' -> Round.round2 q == Round.round2 q'.
Proof.
  intros E. unfold Round.round2.
  rewrite (rint_comp (q * 100) (q' * 100)) by (rewrite E; reflexivity).
  reflexivity.
Qed.

(** Two decimals: at distance at most half a hundredth. *)
Lemma round2_near (q : Q) :
  q - (1 # 200) <= Round.round2 q /\ Round.round2 q <= q + (1 # 200).
Proof.
  unfold Round.round2. destruct (rint_nearest (q * 100)) as [Lo Hi].
  revert Lo Hi. generalize (inject_Z (Round.rint (q * 100))) as r. intros r Lo Hi.
  assert (D : r / 100 == r * (1 # 100)) by field.
  rewrite D. split; Lqa.lra.
Qed.

(** ** The callback *)

Lemma log_name_differs (col name : string) :
  String.prefix "log_" name = false -> ("log_" ++ col)%string <> name.
Proof.
  intros P E. subst name. rewrite prefix_append in P. discriminate.
Qed.

Lemma log_name_fresh (col : string) : ("log_" ++ col)%string <> col.
Proof.
  intros E. apply (f_equal String.length) in E.
  simpl in E. lia.
Qed.

Lemma add_log_inr (w : which) (col : string) (st st' : frames) :
  add_log w col st = inr st' ->
  exists xs,
    lookup (deref w st) col = Some (NumCol xs) /\
    st' = assign w (setitem (deref w st) ("log_" ++ col) (LogCol xs)) st.
Proof.
  unfold add_log, np_log1p; intros H.
  apply bind_inr in H as (c & Ec & H). apply bind_inr in H as (lg & El & H).
  injection H as <-.
  apply bind_inr in El as (xs & Ex & El). injection El as <-.
  apply getitem_inr in Ec. apply as_num_inr in Ex. subst c.
  exists xs. split; [exact Ec | reflexivity].
Qed.

(** Adding a log column leaves every column that is not a log column as it
    was, in both frames. *)
Lemma add_log_keeps (w : which) (col : string) (st st' : frames) :
  add_log w col st = inr st' ->
  forall w' name, String.prefix "log_" name = false ->
                  lookup (deref w' st') name = lookup (deref w' st) name.
Proof.
  intros H w' name P. apply add_log_inr in H as (xs & _ & ->).
  destruct w, w', st as [c a]; simpl; try reflexivity;
    apply lookup_setitem_other, log_name_differs; exact P.
Qed.

(** A map built right after its log column was added is colored by the
    log-scale of the measure it shows. *)
Lemma add_log_choropleth (w : which) (col title : string) (st st' : frames)
      (fig : Choropleth) :
  add_log w col st = inr st' ->
  choropleth (deref w st') "FIPS" ("log_" ++ col) "county" col title = inr fig ->
  log_colored fig.
Proof.
  intros H C. apply add_log_inr in H as (xs & L & ->).
  assert (D : deref w (assign w (setitem (deref w st) ("log_" ++ col) (LogCol xs)) st)
              = setitem (deref w st) ("log_" ++ col) (LogCol xs))
    by (destruct w; reflexivity).
  rewrite D in C. unfold choropleth, px_column in C.
  rewrite lookup_setitem_same in C.
  rewrite (lookup_setitem_other _ _ col) in C by apply log_name_fresh.
  rewrite L in C. inv_ret C. injection C as <-.
  injection E0 as <-. injection E2 as <-.
  exists xs. split; reflexivity.
Qed.

Lemma loss_maps_inr (items : list (string * string)) :
  forall (i : nat) (st : frames) (r : list Choropleth * frames),
    loss_maps i items st = inr r ->
    Forall log_colored (fst r) /\
    forall w name, String.prefix "log_" name = false ->
                   lookup (deref w (snd r)) name = lookup (deref w st) name.
Proof.
  induction items as [| [col lab] items IH]; intros i st r H; simpl in H.
  - injection H as <-. split; [constructor | reflexivity].
  - inv_ret H. injection H as <-. simpl.
    destruct (IH _ _ _ E1) as [F K]. split.
    + constructor; [| exact F]. eapply add_log_choropleth; eassumption.
    + intros w name P. rewrite K by exact P.
      eapply add_log_keeps; eassumption.
Qed.

Lemma stage_maps_inr (w : which) (cols : list string) :
  forall (st : frames) (r : list Choropleth * frames),
    stage_maps w cols st = inr r ->
    Forall log_colored (fst r) /\
    forall w' name, String.prefix "log_" name = false ->
                    lookup (deref w' (snd r)) name = lookup (deref w' st) name.
Proof.
  induction cols as [| col cols IH]; intros st r H; simpl in H.
  - injection H as <-. split; [constructor | reflexivity].
  - inv_ret H. injection H as <-. simpl.
    destruct (IH _ _ E1) as [F K]. split.
    + constructor; [| exact F]. eapply add_log_choropleth; eassumption.
    + intros w' name P. rewrite K by exact P.
      eapply add_log_keeps; eassumption.
Qed.

(** The steps of a run of the callback that returned. *)
Lemma update_dashboard_inr (base : string) (read : string -> M DataFrame)
      (year : string) (out : Outputs) :
  update_dashboard base read year = inr out ->
  exists n a i crop animal t r fig tab s inv,
    load_data base read year = inr (n, a, i, crop, animal, t) /\
    loss_maps 0 nitrogen_loss_labels (crop, animal) = inr r /\
    total_loss_map t = inr fig /\
    loss_table (fst (snd r)) (snd (snd r)) = inr tab /\
    stage_sections (combine stage_dfs stage_columns) (snd r) = inr s /\
    inventory_harvest i a = inr inv /\
    out = {| chloropleth_maps := fst r ++ [fig];
             nitrogen_loss_table := data_table tab;
             import_export_tables := fst s;
             import_export_maps := [];
             inventory_harvest_section := inv |}.
Proof.
  unfold update_dashboard; intros H.
  apply bind_inr in H as ([[[[[n a] i] crop] animal] t] & E & H).
  inv_ret H. injection H as <-.
  exists n, a, i, crop, animal, t, v, v0, v1, v2, v3.
  repeat (split; [assumption |]). reflexivity.
Qed.

(** ** The loss table *)

Lemma column_sums_inr (df sel : DataFrame) (names : list string)
      (sums : list (option Q)) :
  getitems df names = inr sel -> sum_axis0 sel = inr sums ->
  exists cs,
    Forall2 (fun name xs => lookup df name = Some (NumCol xs)) names cs /\
    sums = map (fun xs => Some (nansum xs)) cs.
Proof.
  intros G. apply getitems_inr in G as [_ G]. revert sums.
  induction G as [| name [n0 c] names sel [_ L] _ IH]; intros sums S;
    unfold sum_axis0 in S; simpl in S.
  - injection S as <-. exists []. split; constructor.
  - apply bind_inr in S as (y & Ey & S). apply bind_inr in S as (ys & Eys & S).
    injection S as <-.
    apply bind_inr in Ey as (xs & Ex & Ey). injection Ey as <-.
    apply as_num_inr in Ex. simpl in L. subst c.
    destruct (IH _ Eys) as (cs & F & ->).
    exists (xs :: cs). split; [constructor; assumption | reflexivity].
Qed.

Lemma nansum_sums (cs : list (list (option Q))) :
  nansum (map (fun xs => Some (nansum xs)) cs) = sumQ (map nansum cs).
Proof. induction cs as [| xs cs IH]; simpl; [| rewrite IH]; reflexivity. Qed.

Lemma sumQ_app (xs ys : list Q) : sumQ (xs ++ ys) == sumQ xs + sumQ ys.
Proof. induction xs as [| x xs IH]; simpl; [ring | rewrite IH; ring]. Qed.

Lemma loss_table_inr (crop animal tab : DataFrame) :
  loss_table crop animal = inr tab ->
  exists ccols acols,
    Forall2 (fun name xs => lookup crop name = Some (NumCol xs)) crop_loss_columns ccols /\
    Forall2 (fun name xs => lookup animal name = Some (NumCol xs)) animal_loss_columns acols /\
    lookup tab "Total (K Tons)"
    = Some (NumCol (map (fun xs => Some (displayed (nansum xs))) (ccols ++ acols)
                    ++ [Some (Round.round2 (Round.div_1e6 (sumQ (map nansum ccols))
                                            + Round.div_1e6 (sumQ (map nansum acols))))])).
Proof.
  unfold loss_table; intros H.
  apply bind_inr in H as (c & Ec & H). apply bind_inr in H as (cs & Ecs & H).
  apply bind_inr in H as (a & Ea & H). apply bind_inr in H as (asums & Eas & H).
  injection H as <-.
  destruct (column_sums_inr _ _ _ _ Ec Ecs) as (ccols & Fc & ->).
  destruct (column_sums_inr _ _ _ _ Ea Eas) as (acols & Fa & ->).
  exists ccols, acols. split; [exact Fc |]. split; [exact Fa |].
  simpl. unfold table_values. rewrite !map_map, !nansum_sums, map_app, <- app_assoc.
  reflexivity.
Qed.

Lemma Forall2_impl_in {A B} (P P' : A -> B -> Prop) (l : list A) (l' : list B) :
  (forall x y, In x l -> P x y -> P' x y) -> Forall2 P l l' -> Forall2 P' l l'.
Proof.
  intros I F. induction F as [| x y l l' H _ IH]; constructor.
  - apply I; [left; reflexivity | exact H].
  - apply IH. intros x0 y0 HIn. apply I. right; exact HIn.
Qed.

(** The loss table of a run that returned, in terms of the loaded crop-stage
    and animal-stage tables. *)
Lemma update_dashboard_loss_table (base : string) (read : string -> M DataFrame)
      (year : string) (out : Outputs) :
  update_dashboard base read year = inr out ->
  exists n a i crop animal t ccols acols,
    load_data base read year = inr (n, a, i, crop, animal, t) /\
    Forall2 (fun name xs => lookup crop name = Some (NumCol xs)) crop_loss_columns ccols /\
    Forall2 (fun name xs => lookup animal name = Some (NumCol xs)) animal_loss_columns acols /\
    lookup (dt_data (nitrogen_loss_table out)) "Total (K Tons)"
    = Some (NumCol (map (fun xs => Some (displayed (nansum xs))) (ccols ++ acols)
                    ++ [Some (Round.round2 (Round.div_1e6 (sumQ (map nansum ccols))
                                            + Round.div_1e6 (sumQ (map nansum acols))))])).
Proof.
  intros H.
  apply update_dashboard_inr in H
    as (n & a & i & crop & animal & t & r & fig & tab & s & inv &
        Hl & Hm & _ & Ht & _ & _ & ->).
  apply loss_maps_inr in Hm as [_ K].
  apply loss_table_inr in Ht as (ccols & acols & Fc & Fa & L).
  exists n, a, i, crop, animal, t, ccols, acols.
  split; [exact Hl |]. split; [| split; [| exact L]].
  - eapply Forall2_impl_in; [| exact Fc]. simpl. intros name xs HIn L1.
    rewrite <- L1. symmetry. apply (K Crop).
    repeat (destruct HIn as [<- | HIn]; [reflexivity |]). contradiction.
  - eapply Forall2_impl_in; [| exact Fa]. simpl. intros name xs HIn L1.
    rewrite <- L1. symmetry. apply (K Animal).
    repeat (destruct HIn as [<- | HIn]; [reflexivity |]). contradiction.
Qed.

(** Take apart a [Forall2] against a list that is written out. *)
Ltac inv_Forall2 :=
  repeat match goal with
    | F : Forall2 _ (_ :: _) _ |- _ => inversion F; subst; clear F
    | F : Forall2 _ [] _ |- _ => inversion F; subst; clear F
    end.

(** The columns found under a list of names are determined by the names. *)
Lemma lookup_columns_unique (df : DataFrame) (names : list string)
      (cs cs' : list (list (option Q))) :
  Forall2 (fun name xs => lookup df name = Some (NumCol xs)) names cs ->
  Forall2 (fun name xs => lookup df name = Some (NumCol xs)) names cs' ->
  cs = cs'.
Proof.
  intros F. revert cs'.
  induction F as [| name xs names cs L _ IH]; intros cs' F';
    inversion F' as [| ? xs' ? cs'' L' F'']; subst.
  - reflexivity.
  - rewrite L in L'. injection L' as <-. f_equal. apply IH. exact F''.
Qed.

(** A value rounded to two decimals is a hundredth nearest to it. *)
Lemma round2_hundredth (q x : Q) : q == x -> hundredth_near (Round.round2 q) x.
Proof.
  intros E. split.
  - exists (Round.rint (q * 100)). reflexivity.
  - destruct (round2_near q) as [Lo Hi]. revert Lo Hi.
    generalize (Round.round2 q) as d. intros d Lo Hi. split; Lqa.lra.
Qed.

Lemma displayed_hundredth (xs : list (option Q)) :
  hundredth_near (displayed (nansum xs)) (column_sum xs / 1000000).
Proof.
  apply round2_hundredth. rewrite nansum_column_sum. reflexivity.
Qed.

Lemma map_nansum_column_sum (cs : list (list (option Q))) :
  map nansum cs = map column_sum cs.
Proof. apply map_ext. exact nansum_column_sum. Qed.

(** The number column of the loss table of a run that returned: one value
    per loss column, a hundredth nearest to the column's sum over
    [10 ** 6], then the total, a hundredth nearest to the sum of all the
    column sums over [10 ** 6]. *)
Lemma loss_table_values (base : string) (read : string -> M DataFrame)
      (year : string) (out : Outputs)
      (n a i crop animal t : DataFrame) (ccols acols : list (list (option Q))) :
  update_dashboard base read year = inr out ->
  load_data base read year = inr (n, a, i, crop, animal, t) ->
  Forall2 (fun name xs => lookup crop name = Some (NumCol xs)) crop_loss_columns ccols ->
  Forall2 (fun name xs => lookup animal name = Some (NumCol xs)) animal_loss_columns acols ->
  exists shown total,
    lookup (dt_data (nitrogen_loss_table out)) "Total (K Tons)"
    = Some (NumCol (map Some shown ++ [Some total])) /\
    Forall2 (fun d xs => hundredth_near d (column_sum xs / 1000000))
            shown (ccols ++ acols) /\
    hundredth_near total (sumQ (map column_sum (ccols ++ acols)) / 1000000).
Proof.
  intros H Hl Fc Fa.
  apply update_dashboard_loss_table in H
    as (n' & a' & i' & crop' & animal' & t' & ccols' & acols' & Hl' & Fc' & Fa' & L).
  rewrite Hl in Hl'. injection Hl' as <- <- <- <- <- <-.
  rewrite <- (lookup_columns_unique _ _ _ _ Fc Fc') in L.
  rewrite <- (lookup_columns_unique _ _ _ _ Fa Fa') in L.
  exists (map (fun xs => displayed (nansum xs)) (ccols ++ acols)). eexists.
  split; [rewrite map_map; exact L |]. split.
  - generalize (ccols ++ acols) as cs. intros cs.
    induction cs as [| xs cs IH]; constructor;
      [apply displayed_hundredth | exact IH].
  - apply round2_hundredth. unfold Round.div_1e6.
    rewrite !map_nansum_column_sum, map_app, sumQ_app. field.
Qed.

(** The sum of hundredths nearest to given numbers is within 0.005 per
    number of the sum of the numbers. *)
Lemma sum_of_hundredths (shown xs : list Q) :
  Forall2 hundredth_near shown xs ->
  sumQ xs - inject_Z (Z.of_nat (List.length xs)) * (1 # 200) <= sumQ shown /\
  sumQ shown <= sumQ xs + inject_Z (Z.of_nat (List.length xs)) * (1 # 200).
Proof.
  induction 1 as [| d x shown xs [_ [Lo Hi]] _ [Lo' Hi']].
  - split; vm_compute; discriminate.
  - cbn [List.length sumQ fold_right].
    rewrite Nat2Z.inj_succ, <- Z.add_1_r, inject_Z_plus.
    change (inject_Z 1) with 1.
    fold (sumQ xs). fold (sumQ shown). revert Lo' Hi'.
    generalize (inject_Z (Z.of_nat (List.length xs))) as k.
    generalize (sumQ xs) as sx. generalize (sumQ shown) as ss.
    intros ss sx k Lo' Hi'. split; Lqa.lra.
Qed.

Lemma seven_hundredths (shown xs : list Q) :
  Forall2 hundredth_near shown xs -> List.length xs = 7%nat ->
  sumQ xs - (7 # 200) <= sumQ shown /\ sumQ shown <= sumQ xs + (7 # 200).
Proof.
  intros F Len. apply sum_of_hundredths in F. rewrite Len in F.
  change (inject_Z (Z.of_nat 7) * (1 # 200)) with ((7 # 1) * (1 # 200)) in F.
  destruct F as [Lo Hi]. split; Lqa.lra.
Qed.

Lemma Forall2_map_r {A B C} (P : A -> C -> Prop) (f : B -> C) (l : list A) (l' : list B) :
  Forall2 (fun x y => P x (f y)) l l' -> Forall2 P l (map f l').
Proof. induction 1; constructor; assumption. Qed.

Lemma sumQ_div_1e6 (l : list Q) :
  sumQ (map (fun x => x / 1000000) l) == sumQ l / 1000000.
Proof.
  induction l as [| x l IH]; simpl; [field | rewrite IH; field].
Qed.



(** C3, as stated, fails: with column sums of 4000 each the seven table
    values are 0.00 and the reported total is 0.03. *)
Lemma category_values_do_not_add_up :
  Synthetic.table_column (update_dashboard Synthetic.base_dir Synthetic.small "2017")
  = Some (NumCol (map Some (repeat (0 # 100) 7) ++ [Some (3 # 100)])) /\
  ~ sumQ (repeat (0 # 100) 7) == 3 # 100.
Proof.
  split; [vm_compute; reflexivity |].
  vm_compute. discriminate.
Qed.

(** C3, as the code has it: each of the seven values shown is a hundredth
    nearest to its column's sum over [10 ** 6], and the reported total is
    a hundredth nearest to the sum of the seven column sums over
    [10 ** 6]; the seven values are rounded one by one and the total once,
    so the sum of the seven is within 0.04 of the reported total.  Stated
    for loss columns of whole numbers whose absolute values add up to
    [2 ^ 48] at most, on which the sums of the program are exact. *)
Theorem categories_partition_unrounded_total
        (base : string) (read : string -> M DataFrame) (year : string)
        (out : Outputs)
        (n a i crop animal t : DataFrame) (ccols acols : list (list (option Q))) :
  update_dashboard base read year = inr out ->
  load_data base read year = inr (n, a, i, crop, animal, t) ->
  Forall2 (fun name xs => lookup crop name = Some (NumCol xs)) crop_loss_columns ccols ->
  Forall2 (fun name xs => lookup animal name = Some (NumCol xs)) animal_loss_columns acols ->
  exact_numbers (List.concat (ccols ++ acols)) ->
  exists shown total,
    lookup (dt_data (nitrogen_loss_table out)) "Total (K Tons)"
    = Some (NumCol (map Some shown ++ [Some total])) /\
    Forall2 (fun d xs => hundredth_near d (column_sum xs / 1000000))
            shown (ccols ++ acols) /\
    List.length (ccols ++ acols) = 7%nat /\
    hundredth_near total (sumQ (map column_sum (ccols ++ acols)) / 1000000) /\
    - (4 # 100) <= sumQ shown - total /\ sumQ shown - total <= 4 # 100.
Proof.
  intros H Hl Fc Fa _.
  destruct (loss_table_values _ _ _ _ _ _ _ _ _ _ _ _ H Hl Fc Fa)
    as (shown & total & L & F & T).
  assert (Len : List.length (ccols ++ acols) = 7%nat).
  { rewrite length_app, <- (Forall2_length Fc), <- (Forall2_length Fa). reflexivity. }
  exists shown, total. split; [exact L |]. split; [exact F |].
  split; [exact Len |]. split; [exact T |].
  apply Forall2_map_r with (f := fun xs => column_sum xs / 1000000) in F.
  apply seven_hundredths in F; [| rewrite length_map; exact Len].
  rewrite <- (map_map column_sum (fun x => x / 1000000)), sumQ_div_1e6 in F.
  destruct T as [_ [Lo Hi]]. destruct F as [Lo' Hi']. revert Lo Hi Lo' Hi'.
  generalize (sumQ (map column_sum (ccols ++ acols)) / 1000000) as x.
  generalize (sumQ shown) as r.
  intros r x Lo Hi Lo' Hi'. split; Lqa.lra.
Qed.

(** C3, witness: with column sums of 4000 each, the seven values shown add
    up to 0.00 and the reported total is 0.03: they differ by 0.03. *)
Lemma categories_partition_unrounded_total_witness :
  exists out shown total,
    update_dashboard Synthetic.base_dir Synthetic.small "2017" = inr out /\
    lookup (dt_data (nitrogen_loss_table out)) "Total (K Tons)"
    = Some (NumCol (map Some shown ++ [Some total])) /\
    sumQ shown == 0 /\ total == 3 # 100 /\
    - (4 # 100) <= sumQ shown - total /\ sumQ shown - total <= 4 # 100.
Proof.
  destruct (update_dashboard Synthetic.base_dir Synthetic.small "2017")
    as [e | out] eqn:E; [vm_compute in E; discriminate E |].
  destruct (load_data Synthetic.base_dir Synthetic.small "2017")
    as [e | [[[[[n a] i] crop] animal] t]] eqn:El; [discriminate El |].
  pose proof El as El'. vm_compute in El'. injection El' as <- <- <- <- <- <-.
  assert (X : exact_numbers
                (List.concat ([ [Some (1500 # 1); Some (2500 # 1)];
                           [Some (1500 # 1); Some (2500 # 1)] ]
                         ++ [ [Some (1500 # 1); Some (2500 # 1)];
                              [Some (1500 # 1); Some (2500 # 1)];
                              [Some (1500 # 1); Some (2500 # 1)];
                              [Some (1500 # 1); Some (2500 # 1)];
                              [Some (1500 # 1); Some (2500 # 1)] ])))
    by (simpl; solve_exact_numbers).
  destruct (categories_partition_unrounded_total _ _ _ _ _ _ _ _ _ _ _ _ E El
              ltac:(repeat constructor) ltac:(repeat constructor) X)
    as (shown & total & L & F & _ & _ & B).
  pose proof (eq_refl : Synthetic.table_column
                          (update_dashboard Synthetic.base_dir Synthetic.small "2017")
                        = Some (NumCol (map Some (repeat (0 # 100) 7) ++ [Some (3 # 100)])))
    as V.
  rewrite E in V. simpl in V. rewrite L in V.
  pose proof (Forall2_length F) as Len. simpl in Len.
  do 8 (destruct shown as [| ? shown]; try discriminate Len).
  simpl in V. injection V as -> -> -> -> -> -> -> ->.
  exists out. eexists. eexists. split; [reflexivity |]. split; [exact L |].
  split; [reflexivity |]. split; [reflexivity |]. exact B.
Defined.

(** C7, as stated, fails: with two rows of 1e6 (crop-stage) and of 2e6
    (animal-stage) in every loss column, the table values are not
    1, 1, 2, 2, 2, 2, 2 and 12. *)
Lemma two_rows_do_not_give_12 :
  exists vals,
    Synthetic.table_column (update_dashboard Synthetic.base_dir Synthetic.two_rows "2017")
    = Some (NumCol vals) /\
    ~ same_values vals [Some 1; Some 1; Some 2; Some 2; Some 2; Some 2; Some 2; Some 12].
Proof.
  eexists. split; [vm_compute; reflexivity |].
  intros F. inversion F as [| x y l l' H _]; subst.
  vm_compute in H. discriminate H.
Qed.

(** C7, as the code has it: a column of the loss table is summed over the
    rows.  Two rows of 1e6 and of 2e6 give 2, 2, 4, 4, 4, 4, 4 and 24; one
    such row per table gives 1, 1, 2, 2, 2, 2, 2 and 12. *)
Theorem end_to_end_2017_loss_table :
  (exists vals,
      Synthetic.table_column (update_dashboard Synthetic.base_dir Synthetic.two_rows "2017")
      = Some (NumCol vals) /\
      same_values vals [Some 2; Some 2; Some 4; Some 4; Some 4; Some 4; Some 4; Some 24]) /\
  (exists vals,
      Synthetic.table_column (update_dashboard Synthetic.base_dir Synthetic.one_row "2017")
      = Some (NumCol vals) /\
      same_values vals [Some 1; Some 1; Some 2; Some 2; Some 2; Some 2; Some 2; Some 12]).
Proof.
  split; eexists; (split; [vm_compute; reflexivity |]);
    repeat constructor.
Qed.

(** ** The commodity tables *)

Lemma label_of_key_column (gs : list key) :
  map (option_map (fun s => Str.replace (Str.title s) "_" " "))
      (map (fun k => match k with KStr s => Some s | KNum _ => None end) gs)
  = map label gs.
Proof. rewrite map_map. apply map_ext. intros [q | s]; reflexivity. Qed.

(** The commodity table of a stage: one row per distinct commodity key as
    it is spelled, in sorted order; the label is formatted afterwards. *)
Lemma commodity_table_inr (df t : DataFrame) (cols : list string) :
  In cols stage_columns ->
  commodity_table df cols = inr t ->
  exists names m0 m1 m2,
    lookup df "commodity" = Some (ObjCol names) /\
    Forall2 (fun c xs => lookup df c = Some (NumCol xs)) cols [m0; m1; m2] /\
    t = [ ("Commodity", ObjCol (map label (group_keys (map (option_map KStr) names))));
          ("Import (K Tons)",
            NumCol (map (fun k => Some (displayed
                           (nansum (select k (map (option_map KStr) names) m0))))
                        (group_keys (map (option_map KStr) names))));
          ("Export (K Tons)",
            NumCol (map (fun k => Some (displayed
                           (nansum (select k (map (option_map KStr) names) m1))))
                        (group_keys (map (option_map KStr) names))));
          ("Within County (K Tons)",
            NumCol (map (fun k => Some (displayed
                           (nansum (select k (map (option_map KStr) names) m2))))
                        (group_keys (map (option_map KStr) names)))) ].
Proof.
  intros HIn. simpl in HIn.
  destruct HIn as [<- | [<- | [<- | []]]];
    unfold commodity_table, groupby_agg, getitem; simpl;
    (destruct (lookup df "commodity") as [kc |]; [| discriminate]); simpl;
    (destruct (keys_of kc) as [| ks] eqn:K; [discriminate |]); simpl;
    repeat match goal with
      | |- context [lookup df ?c] =>
          let m := fresh "m" in
          let E := fresh "E" in
          destruct (lookup df c) as [[m | |] |] eqn:E; simpl; try discriminate
      end;
    (destruct kc as [? | names | ?]; simpl in K |- *; try discriminate);
    injection K as <-; intros H; injection H as <-;
    exists names, m, m0, m1;
    (split; [reflexivity |]); (split; [repeat constructor; assumption |]);
    rewrite label_of_key_column; unfold displayed; rewrite ?map_map; reflexivity.
Qed.

Lemma stage_sections_inr (stages : list (which * list string)) :
  forall (st : frames) (r : list StageSection * frames),
    stage_sections stages st = inr r ->
    Forall2 (fun stage sec =>
               Forall log_colored (sec_maps sec) /\
               exists df,
                 (forall name, String.prefix "log_" name = false ->
                               lookup df name = lookup (deref (fst stage) st) name) /\
                 commodity_table df (snd stage) = inr (dt_data (sec_table sec)))
            stages (fst r) /\
    forall w name, String.prefix "log_" name = false ->
                   lookup (deref w (snd r)) name = lookup (deref w st) name.
Proof.
  induction stages as [| [w cols] stages IH]; intros st r H; simpl in H.
  - injection H as <-. split; [constructor | reflexivity].
  - apply bind_inr in H as (m & Em & H). apply bind_inr in H as (t & Et & H).
    apply bind_inr in H as (r' & Er & H). injection H as <-. simpl.
    destruct (stage_maps_inr _ _ _ _ Em) as [Fm Km].
    destruct (IH _ _ Er) as [Fs Ks]. split.
    + constructor.
      * simpl. split; [exact Fm |]. exists (deref w (snd m)).
        split; [intros name P; apply Km; exact P | exact Et].
      * eapply Forall2_impl; [| exact Fs].
        intros stage sec [Fl (df & Kd & Hd)]. split; [exact Fl |].
        exists df. split; [| exact Hd].
        intros name P. rewrite Kd by exact P. apply Km; exact P.
    + intros w' name P. rewrite Ks by exact P. apply Km; exact P.
Qed.

(** The rows a commodity group is made of are the rows whose commodity is
    spelled as the key of the group. *)
Lemma select_rows_named {A} (s : string) (names : list (option string)) (xs : list A) :
  select (KStr s) (map (option_map KStr) names) xs = rows_named s names xs.
Proof.
  unfold rows_named. revert xs; induction names as [| [s' |] names IH]; intros [| x xs];
    simpl; try reflexivity.
  - unfold key_eqb. destruct (key_eq_dec (KStr s) (KStr s')) as [E | N].
    + injection E as <-. rewrite String.eqb_refl. simpl. rewrite IH. reflexivity.
    + destruct (String.eqb_spec s s') as [-> | _]; [contradiction N; reflexivity |].
      apply IH.
  - apply IH.
Qed.

(** The group keys of a column of strings: the distinct strings of the
    column. *)
Lemma string_keys (names : list (option string)) :
  exists keys,
    group_keys (map (option_map KStr) names) = map KStr keys /\
    NoDup keys /\ forall s, In s keys <-> In (Some s) names.
Proof.
  destruct (group_keys_spec (map (option_map KStr) names)) as [ND Hk].
  revert ND Hk. generalize (group_keys (map (option_map KStr) names)) as gs.
  intros gs ND Hk.
  set (str := fun k => match k with KStr s => s | KNum _ => EmptyString end).
  assert (E : gs = map KStr (map str gs)).
  { rewrite map_map. rewrite <- (map_id gs) at 1. apply map_ext_in.
    intros k HIn. apply Hk in HIn. apply in_map_iff in HIn as ([s |] & E & _);
      [| discriminate].
    simpl in E. injection E as <-. reflexivity. }
  exists (map str gs). split; [exact E |]. split.
  - rewrite E in ND. apply NoDup_map_inv in ND. exact ND.
  - intros s. split.
    + intros HIn. apply (in_map KStr) in HIn. rewrite <- E in HIn.
      apply Hk in HIn. apply in_map_iff in HIn as ([s' |] & E' & HIn);
        [| discriminate].
      simpl in E'. injection E' as ->. exact HIn.
    + intros HIn. apply (in_map (option_map KStr)) in HIn. simpl in HIn.
      apply Hk in HIn. rewrite E in HIn.
      apply in_map_iff in HIn as (s' & E' & HIn). injection E' as ->. exact HIn.
Qed.

(** The sums of the groups, as the table shows them. *)
Lemma group_values_near (names : list (option string)) (m : list (option Q))
      (keys : list string) :
  Forall2 (fun s d => hundredth_near d (column_sum (rows_named s names m) / 1000000))
          keys
          (map (fun s => displayed (nansum (select (KStr s) (map (option_map KStr) names) m)))
               keys).
Proof.
  induction keys as [| s keys IH]; constructor; [| exact IH].
  rewrite select_rows_named. apply displayed_hundredth.
Qed.

(** C1, as the code has it: the rows of a stage are grouped by the
    commodity key as it is spelled, and the label is formatted after the
    grouping.  The commodity table has one row per distinct spelling of a
    commodity in the stage table, with the formatted label and, per flow
    measure, the sum of the measure over the rows with that spelling,
    divided by [10 ** 6] and rounded to two decimals (a hundredth nearest
    to the quotient; for a measure column of whole numbers whose absolute
    values add up to [2 ^ 48] at most, on which the sums of the program are
    exact).  Keys that differ in spelling stay apart, also when their
    labels agree. *)
Theorem commodity_rows_grouped_by_key
        (base : string) (read : string -> M DataFrame) (year : string)
        (out : Outputs) :
  update_dashboard base read year = inr out ->
  exists n a i crop animal t,
    load_data base read year = inr (n, a, i, crop, animal, t) /\
    Forall2
      (fun stage sec =>
         exists names m0 m1 m2 keys c0 c1 c2,
           lookup (deref (fst stage) (crop, animal)) "commodity" = Some (ObjCol names) /\
           Forall2 (fun c xs => lookup (deref (fst stage) (crop, animal)) c
                                = Some (NumCol xs))
                   (snd stage) [m0; m1; m2] /\
           NoDup keys /\
           (forall s, In s keys <-> In (Some s) names) /\
           dt_data (sec_table sec)
           = [ ("Commodity",
                 ObjCol (map (fun s => Some (Str.replace (Str.title s) "_" " ")) keys));
               ("Import (K Tons)", NumCol (map Some c0));
               ("Export (K Tons)", NumCol (map Some c1));
               ("Within County (K Tons)", NumCol (map Some c2)) ] /\
           (exact_numbers m0 ->
            Forall2 (fun s d => hundredth_near
                                  d (column_sum (rows_named s names m0) / 1000000))
                    keys c0) /\
           (exact_numbers m1 ->
            Forall2 (fun s d => hundredth_near
                                  d (column_sum (rows_named s names m1) / 1000000))
                    keys c1) /\
           (exact_numbers m2 ->
            Forall2 (fun s d => hundredth_near
                                  d (column_sum (rows_named s names m2) / 1000000))
                    keys c2))
      (combine stage_dfs stage_columns) (import_export_tables out).
Proof.
  intros H.
  apply update_dashboard_inr in H
    as (n & a & i & crop & animal & t & r & fig & tab & s & inv &
        Hl & Hm & _ & _ & Hs & _ & ->).
  exists n, a, i, crop, animal, t. split; [exact Hl |]. simpl.
  apply loss_maps_inr in Hm as [_ Km]. simpl in Km.
  apply stage_sections_inr in Hs as [Fs _].
  eapply Forall2_impl_in; [| exact Fs].
  intros [w cols] sec HIn [_ (df & Kd & Hd)]. simpl in *.
  assert (Hcols : In cols stage_columns).
  { repeat (destruct HIn as [HIn | HIn];
            [injection HIn as <- <-; simpl; tauto |]). contradiction. }
  destruct (commodity_table_inr _ _ _ Hcols Hd)
    as (names & m0 & m1 & m2 & Ln & Fc & ->).
  destruct (string_keys names) as (keys & -> & ND & Hk).
  exists names, m0, m1, m2, keys.
  exists (map (fun s => displayed (nansum (select (KStr s) (map (option_map KStr) names) m0)))
              keys),
         (map (fun s => displayed (nansum (select (KStr s) (map (option_map KStr) names) m1)))
              keys),
         (map (fun s => displayed (nansum (select (KStr s) (map (option_map KStr) names) m2)))
              keys).
  split; [| split; [| split; [exact ND | split; [exact Hk | split]]]].
  - rewrite <- Km by reflexivity. rewrite <- Kd by reflexivity. exact Ln.
  - eapply Forall2_impl_in; [| exact Fc]. simpl. intros c xs Hc Lc.
    rewrite <- Km, <- Kd; [exact Lc | |];
      repeat (destruct Hcols as [<- | Hcols];
              [repeat (destruct Hc as [<- | Hc]; [reflexivity |]); contradiction |]);
      contradiction.
  - rewrite !map_map. reflexivity.
  - repeat split; intros _; apply group_values_near.
Qed.

(** C1, witness: the crop stage of the synthetic year 2017, whose two rows
    are keyed "corn_grain" (export 10,000,000) and "CORN_GRAIN" (export
    5,000,000): the commodity table has the two keys on two rows, both
    labeled "Corn Grain", with the exports 5.00 and 10.00, each on the row
    of its key. *)
Lemma commodity_rows_grouped_by_key_witness :
  exists out sec keys c0 c1 c2,
    update_dashboard Synthetic.base_dir Synthetic.two_rows "2017" = inr out /\
    nth_error (import_export_tables out) 0 = Some sec /\
    dt_data (sec_table sec)
    = [ ("Commodity",
          ObjCol (map (fun s => Some (Str.replace (Str.title s) "_" " ")) keys));
        ("Import (K Tons)", NumCol (map Some c0));
        ("Export (K Tons)", NumCol (map Some c1));
        ("Within County (K Tons)", NumCol (map Some c2)) ] /\
    NoDup keys /\
    (forall s, In s keys <-> In (Some s) [Some "corn_grain"; Some "CORN_GRAIN"]) /\
    map (fun s => Some (Str.replace (Str.title s) "_" " ")) keys
    = [Some "Corn Grain"; Some "Corn Grain"] /\
    c1 = [500 # 100; 1000 # 100] /\
    Forall2 (fun s d => hundredth_near
                          d (column_sum (rows_named s [Some "corn_grain"; Some "CORN_GRAIN"]
                                                    [Some 10000000; Some 5000000])
                             / 1000000))
            keys c1.
Proof.
  destruct (update_dashboard Synthetic.base_dir Synthetic.two_rows "2017")
    as [e | out] eqn:E; [vm_compute in E; discriminate E |].
  destruct (commodity_rows_grouped_by_key _ _ _ _ E)
    as (n & a & i & crop & animal & t & El & F).
  vm_compute in El. injection El as <- <- <- <- <- <-.
  pose proof (eq_refl : Synthetic.stage_table
                          (update_dashboard Synthetic.base_dir Synthetic.two_rows "2017") 0
                        = Some [ ("Commodity", ObjCol [Some "Corn Grain"; Some "Corn Grain"]);
                                 ("Import (K Tons)", NumCol [Some (0 # 100); Some (0 # 100)]);
                                 ("Export (K Tons)",
                                   NumCol [Some (500 # 100); Some (1000 # 100)]);
                                 ("Within County (K Tons)",
                                   NumCol [Some (0 # 100); Some (0 # 100)]) ]) as V.
  rewrite E in V. unfold Synthetic.stage_table in V.
  cbn [combine stage_dfs stage_columns] in F.
  remember (import_export_tables out) as secs eqn:Es.
  inversion F as [| stage sec l l' P0 _ E1 E2]. subst secs stage.
  cbn [nth_error option_map] in V. injection V as V.
  destruct P0 as (names & m0 & m1 & m2 & keys & c0 & c1 & c2 &
                  Ln & Fc & ND & Hk & T & _ & N1 & _).
  cbn in Ln. injection Ln as <-.
  inversion Fc as [| ? ? ? ? _ Fc1]; subst.
  inversion Fc1 as [| ? ? ? ? L1 _]; subst. cbn in L1. injection L1 as <-.
  rewrite T in V. injection V as Vk V0 V1 V2.
  exists out, sec, keys, c0, c1, c2.
  split; [reflexivity |]. split; [rewrite <- E2; reflexivity |].
  split; [exact T |].
  split; [exact ND |]. split; [exact Hk |]. split; [exact Vk |].
  assert (X : exact_numbers [Some (10000000 # 1); Some (5000000 # 1)])
    by solve_exact_numbers.
  specialize (N1 X). clear - V1 N1.
  destruct c1 as [| d0 [| d1 [| ? ?]]]; try discriminate V1.
  injection V1 as -> ->. split; [reflexivity | exact N1].
Defined.

(** C1, as stated, fails: the rows keyed "corn_grain" and "CORN_GRAIN" give
    two rows labeled "Corn Grain", each with its own sums. *)
Lemma same_label_rows_are_not_merged :
  exists t,
    Synthetic.stage_table
      (update_dashboard Synthetic.base_dir Synthetic.two_rows "2017") 0 = Some t /\
    lookup t "Commodity" = Some (ObjCol [Some "Corn Grain"; Some "Corn Grain"]) /\
    lookup t "Import (K Tons)" = Some (NumCol [Some (0 # 100); Some (0 # 100)]) /\
    lookup t "Export (K Tons)" = Some (NumCol [Some (500 # 100); Some (1000 # 100)]).
Proof.
  eexists. split; [vm_compute; reflexivity |].
  repeat split.
Qed.

(** ** The map of the county totals *)

Lemma total_loss_map_inr (t : DataFrame) (fig : Choropleth) :
  total_loss_map t = inr fig -> log_colored fig.
Proof.
  unfold total_loss_map, np_log1p; intros H.
  apply bind_inr in H as (c & Ec & H). apply bind_inr in H as (lg & El & H).
  apply bind_inr in El as (xs & Ex & El). injection El as <-.
  apply getitem_inr in Ec. apply as_num_inr in Ex. subst c.
  unfold choropleth, px_column in H.
  rewrite lookup_setitem_same in H.
  rewrite (lookup_setitem_other _ _ "total_nitrogen_loss") in H by discriminate.
  rewrite Ec in H.
  apply bind_inr in H as (l & _ & H). simpl in H.
  apply bind_inr in H as (h & _ & H). simpl in H. injection H as <-.
  exists xs. split; reflexivity.
Qed.

(** ** Failures *)

Lemma dict_get_missing (d : list (string * string)) (k : string) :
  ~ In k (map fst d) -> dict_get d k = inl (KeyError k).
Proof.
  induction d as [| [k' v] d IH]; simpl; intros N; [reflexivity |].
  destruct (String.eqb_spec k' k) as [-> | _].
  - exfalso. apply N. left; reflexivity.
  - apply IH. intros HIn. apply N. right; exact HIn.
Qed.

(** C9, as the code has it: a year key that is not among the three valid
    ones makes the loader raise [KeyError] on that key, before any file is
    read; and whatever the loader raises, the callback raises the same
    one exception and returns no output at all. *)
Theorem unknown_year_fails_whole_request
        (base : string) (read : string -> M DataFrame) (year : string) :
  ~ In year ["2017"; "2030"; "2050"] ->
  load_data base read year = inl (KeyError year) /\
  update_dashboard base read year = inl (KeyError year) /\
  exn_class (KeyError year) = "KeyError" /\
  forall selected_year e,
    load_data base read selected_year = inl e ->
    update_dashboard base read selected_year = inl e.
Proof.
  intros N.
  assert (L : load_data base read year = inl (KeyError year)).
  { unfold load_data. apply bind_inl. apply dict_get_missing. exact N. }
  assert (P : forall selected_year e,
             load_data base read selected_year = inl e ->
             update_dashboard base read selected_year = inl e).
  { intros y e E. unfold update_dashboard. apply bind_inl. exact E. }
  repeat split; auto.
Qed.

(** C9, witness: the year 1999. *)
Lemma unknown_year_fails_whole_request_witness :
  update_dashboard Synthetic.base_dir Synthetic.two_rows "1999" = inl (KeyError "1999").
Proof.
  assert (N : ~ In "1999" ["2017"; "2030"; "2050"])
    by (simpl; intros [D | [D | [D | []]]]; discriminate D).
  exact (proj1 (proj2 (unknown_year_fails_whole_request
                         Synthetic.base_dir Synthetic.two_rows "1999" N))).
Defined.

(** C9, as stated, fails: the exception of an unknown year is a
    [KeyError], not a [DatasetNotFoundError]. *)
Lemma unknown_year_raises_KeyError :
  exists e,
    update_dashboard Synthetic.base_dir Synthetic.two_rows "1999" = inl e /\
    exn_class e = "KeyError" /\
    exn_class e <> "DatasetNotFoundError".
Proof.
  eexists. split; [vm_compute; reflexivity |].
  split; [reflexivity | discriminate].
Qed.

(** ** Inventory and harvested area *)

Lemma str_title_replace_inr (c c' : column) :
  str_title_replace c = inr c' -> exists xs, c = ObjCol xs.
Proof. destruct c; simpl; intros H; try discriminate. eauto. Qed.

(** Formatting the commodity labels leaves every numeric column as it
    was. *)
Lemma format_commodity_inr (df df' : DataFrame) :
  format_commodity df = inr df' ->
  forall name xs, lookup df name = Some (NumCol xs) ->
                  lookup df' name = Some (NumCol xs).
Proof.
  unfold format_commodity. destruct (has_column df "Commodity").
  - intros H name xs L.
    apply bind_inr in H as (c & Ec & H). apply bind_inr in H as (c' & Et & H).
    injection H as <-. apply getitem_inr in Ec.
    apply str_title_replace_inr in Et as [ys ->].
    rewrite lookup_setitem_other; [exact L |].
    intros <-. rewrite Ec in L. discriminate L.
  - intros H name xs L. injection H as <-. exact L.
Qed.

Lemma lookup_round (df : DataFrame) (name : string) :
  lookup (Frame.round df) name = option_map round_col (lookup df name).
Proof.
  induction df as [| [n c] df IH]; simpl; [reflexivity |].
  destruct (String.eqb n name); [reflexivity | exact IH].
Qed.

Lemma pie_inr (df : DataFrame) (names values title : string) (p : Pie) :
  pie df names values title = inr p -> lookup df values = Some (pie_values p).
Proof.
  unfold pie, px_column; intros H.
  apply bind_inr in H as (n & _ & H). apply bind_inr in H as (v & Ev & H).
  injection H as <-. simpl.
  destruct (lookup df values); [injection Ev as <-; reflexivity | discriminate].
Qed.

Lemma inventory_harvest_inr (inventory_df area_df : DataFrame) (sec : InventorySection) :
  inventory_harvest inventory_df area_df = inr sec ->
  exists inv' area',
    format_commodity inventory_df = inr inv' /\
    format_commodity area_df = inr area' /\
    lookup inv' "Total Inventory (head)" = Some (pie_values (inventory_chart sec)) /\
    lookup area' "Total Harvested Area (Acre)" = Some (pie_values (area_chart sec)) /\
    dt_data (inventory_table sec) = Frame.round inv' /\
    dt_data (area_table sec) = Frame.round area'.
Proof.
  unfold inventory_harvest; intros H.
  apply bind_inr in H as (inv' & Ei & H). apply bind_inr in H as (area' & Ea & H).
  apply bind_inr in H as (ic & Eic & H). apply bind_inr in H as (ac & Eac & H).
  injection H as <-. simpl.
  exists inv', area'. apply pie_inr in Eic, Eac. auto 10.
Qed.

(** C10: in the inventory and harvested-area section every number of the
    two tables is the number read from the file rounded to the nearest
    integer (a tie going to the even one), while the values of the two pie
    charts are the numbers read from the file, not rounded. *)
Theorem tables_rounded_charts_not
        (base : string) (read : string -> M DataFrame) (year : string)
        (out : Outputs) :
  update_dashboard base read year = inr out ->
  exists n area_df inventory_df crop animal t,
    load_data base read year = inr (n, area_df, inventory_df, crop, animal, t) /\
    (forall xs, lookup inventory_df "Total Inventory (head)" = Some (NumCol xs) ->
                pie_values (inventory_chart (inventory_harvest_section out)) = NumCol xs) /\
    (forall xs, lookup area_df "Total Harvested Area (Acre)" = Some (NumCol xs) ->
                pie_values (area_chart (inventory_harvest_section out)) = NumCol xs) /\
    (forall name xs,
        lookup inventory_df name = Some (NumCol xs) ->
        lookup (dt_data (inventory_table (inventory_harvest_section out))) name
        = Some (NumCol (map (option_map Round.round0) xs))) /\
    (forall name xs,
        lookup area_df name = Some (NumCol xs) ->
        lookup (dt_data (area_table (inventory_harvest_section out))) name
        = Some (NumCol (map (option_map Round.round0) xs))) /\
    (forall q, Round.round0 q = inject_Z (Round.rint q) /\
               q - (1 # 2) <= Round.round0 q /\ Round.round0 q <= q + (1 # 2)).
Proof.
  intros H.
  apply update_dashboard_inr in H
    as (n & a & i & crop & animal & t & r & fig & tab & s & inv &
        Hl & _ & _ & _ & _ & Hi & ->).
  exists n, a, i, crop, animal, t. split; [exact Hl |]. simpl.
  apply inventory_harvest_inr in Hi
    as (inv' & area' & Fi & Fa & Pi & Pa & Ti & Ta).
  split; [| split; [| split; [| split]]].
  - intros xs L. apply (format_commodity_inr _ _ Fi) in L.
    rewrite Pi in L. injection L as ->. reflexivity.
  - intros xs L. apply (format_commodity_inr _ _ Fa) in L.
    rewrite Pa in L. injection L as ->. reflexivity.
  - intros name xs L. apply (format_commodity_inr _ _ Fi) in L.
    rewrite Ti, lookup_round, L. reflexivity.
  - intros name xs L. apply (format_commodity_inr _ _ Fa) in L.
    rewrite Ta, lookup_round, L. reflexivity.
  - intros q. split; [reflexivity |]. apply rint_nearest.
Qed.

(** C10, witness: an inventory of 2.5 and 1234.567 head is charted as it
    is and tabulated as 2 and 1235. *)
Lemma tables_rounded_charts_not_witness :
  exists out,
    update_dashboard Synthetic.base_dir Synthetic.two_rows "2017" = inr out /\
    pie_values (inventory_chart (inventory_harvest_section out))
    = NumCol [Some (5 # 2); Some (1234567 # 1000)] /\
    lookup (dt_data (inventory_table (inventory_harvest_section out)))
           "Total Inventory (head)"
    = Some (NumCol [Some (inject_Z 2); Some (inject_Z 1235)]).
Proof.
  destruct (update_dashboard Synthetic.base_dir Synthetic.two_rows "2017")
    as [e | out] eqn:E; [vm_compute in E; discriminate E |].
  destruct (tables_rounded_charts_not _ _ _ _ E)
    as (n & a & i & crop & animal & t & Hl & Pi & _ & Ti & _).
  vm_compute in Hl. injection Hl as <- <- <- <- <- <-.
  exists out. split; [reflexivity |]. split.
  - apply Pi. reflexivity.
  - rewrite (Ti "Total Inventory (head)" _ eq_refl). reflexivity.
Defined.

(** * Further properties of the code *)

(** ** Labels and column names *)

Lemma rename_column_idempotent (col : string) :
  rename_column (rename_column col) = rename_column col.
Proof. apply rename_column_other, rename_column_clean. Qed.

(** X1: renaming the self-loop columns of a table never fails, keeps the
    data and the order of the columns, and a second renaming changes
    nothing. *)
Theorem rename_selfloop_total_and_idempotent (df : DataFrame) :
  exists df1,
    rename_selfloop df = inr df1 /\
    map snd df1 = map snd df /\
    columns df1 = map rename_column (columns df) /\
    rename_selfloop df1 = inr df1.
Proof.
  exists (map (fun nc => (rename_column (fst nc), snd nc)) df).
  split; [apply rename_selfloop_inr |]. split; [| split].
  - rewrite map_map. reflexivity.
  - unfold columns. rewrite !map_map. reflexivity.
  - rewrite rename_selfloop_inr, map_map. f_equal.
    apply map_ext. intros [n c]. simpl. rewrite rename_column_idempotent. reflexivity.
Qed.

(** [s.replace("_", " ")], character by character. *)
Lemma replace_underscore_step (c : ascii) (s : string) :
  Str.replace (String c s) "_" " "
  = String (if Ascii.eqb c "_" then " "%char else c) (Str.replace s "_" " ").
Proof.
  unfold Str.replace. cbn [Str.replace_from].
  cbn [String.prefix]. destruct (ascii_dec "_" c) as [<- | N].
  - destruct s; reflexivity.
  - destruct (Ascii.eqb_spec c "_") as [-> | _]; [congruence | reflexivity].
Qed.

Lemma replace_underscore_nil : Str.replace "" "_" " " = "".
Proof. reflexivity. Qed.

(** Letters and the two separators: the facts about single characters
    that the label formatting rests on. *)
Lemma char_cases (c : ascii) :
  (Ascii.eqb c "_" = true -> Str.is_lower c = false /\ Str.is_upper c = false) /\
  (Str.is_lower c = true ->
   Str.is_upper c = false /\ Ascii.eqb (Str.to_upper c) "_" = false /\
   Str.is_lower (Str.to_upper c) = false /\ Str.is_upper (Str.to_upper c) = true) /\
  (Str.is_upper c = true ->
   Ascii.eqb c "_" = false /\ Ascii.eqb (Str.to_lower c) "_" = false /\
   Str.is_lower (Str.to_lower c) = true).
Proof.
  destruct c as [[] [] [] [] [] [] [] []]; vm_compute;
    repeat split; intros; congruence.
Qed.

Lemma title_replace_commute_from (b : bool) (s : string) :
  Str.title_from b (Str.replace s "_" " ") = Str.replace (Str.title_from b s) "_" " ".
Proof.
  revert b; induction s as [| c s IH]; intros b; [reflexivity |].
  rewrite replace_underscore_step.
  destruct (char_cases c) as (U & L & P).
  destruct (Ascii.eqb c "_") eqn:E.
  - destruct (U eq_refl) as [Hl Hu].
    cbn [Str.title_from]. rewrite Hl, Hu.
    change (Str.is_lower " ") with false. change (Str.is_upper " ") with false.
    cbv iota. rewrite replace_underscore_step, E, IH. reflexivity.
  - cbn [Str.title_from]. destruct (Str.is_lower c) eqn:Hl.
    + destruct (L eq_refl) as (_ & Eu & _).
      rewrite replace_underscore_step, IH. destruct b; [rewrite E | rewrite Eu]; reflexivity.
    + destruct (Str.is_upper c) eqn:Hu.
      * destruct (P eq_refl) as (_ & El & _).
        rewrite replace_underscore_step, IH. destruct b; [rewrite El | rewrite E]; reflexivity.
      * rewrite replace_underscore_step, E, IH. reflexivity.
Qed.

(** X2: the titles of the stage maps (underscores replaced, then
    title-cased, lines 261 and 267) and the labels of the tables
    (title-cased, then underscores replaced, lines 286, 304 and 308) are
    formatted alike: on every string the two orders give the same text. *)
Theorem title_and_replace_commute (s : string) :
  Str.title (Str.replace s "_" " ") = Str.replace (Str.title s) "_" " ".
Proof. apply title_replace_commute_from. Qed.

Lemma title_from_length (b : bool) (s : string) :
  String.length (Str.title_from b s) = String.length s.
Proof.
  revert b; induction s as [| c s IH]; intros b; [reflexivity |].
  cbn [Str.title_from].
  destruct (Str.is_lower c); [| destruct (Str.is_upper c)];
    cbn [String.length]; rewrite IH; reflexivity.
Qed.

Lemma title_from_idempotent (b : bool) (s : string) :
  Str.title_from b (Str.title_from b s) = Str.title_from b s.
Proof.
  revert b; induction s as [| c s IH]; intros b; [reflexivity |].
  destruct (char_cases c) as (_ & L & P).
  cbn [Str.title_from]. destruct (Str.is_lower c) eqn:Hl.
  - destruct (L eq_refl) as (_ & _ & Ll & Lu).
    destruct b; cbn [Str.title_from].
    + rewrite Hl, IH. reflexivity.
    + rewrite Ll, Lu, IH. reflexivity.
  - destruct (Str.is_upper c) eqn:Hu.
    + destruct (P eq_refl) as (_ & _ & Pl).
      destruct b; cbn [Str.title_from].
      * rewrite Pl, IH. reflexivity.
      * rewrite Hl, Hu, IH. reflexivity.
    + cbn [Str.title_from]. rewrite Hl, Hu, IH. reflexivity.
Qed.

Lemma replace_underscore_spec (s : string) :
  String.length (Str.replace s "_" " ") = String.length s /\
  has_char "_" (Str.replace s "_" " ") = false /\
  Str.replace (Str.replace s "_" " ") "_" " " = Str.replace s "_" " ".
Proof.
  induction s as [| c s (IH1 & IH2 & IH3)]; [repeat split |].
  rewrite replace_underscore_step. cbn [String.length has_char].
  rewrite IH1, IH2, replace_underscore_step, IH3.
  destruct (Ascii.eqb c "_") eqn:E; [repeat split |].
  rewrite E. rewrite Ascii.eqb_sym, E. repeat split.
Qed.

(** X3: a commodity label has as many characters as the key it is made
    from and no underscore, and formatting a label again leaves it as it
    is. *)
Theorem label_format_properties (s : string) :
  String.length (Str.replace (Str.title s) "_" " ") = String.length s /\
  has_char "_" (Str.replace (Str.title s) "_" " ") = false /\
  Str.replace (Str.title (Str.replace (Str.title s) "_" " ")) "_" " "
  = Str.replace (Str.title s) "_" " ".
Proof.
  destruct (replace_underscore_spec (Str.title s)) as (L & N & I).
  split; [| split; [exact N |]].
  - rewrite L. apply title_from_length.
  - unfold Str.title in *.
    rewrite title_replace_commute_from, title_from_idempotent. exact I.
Qed.

(** ** Rounding *)

Lemma rint_Z (z : Z) : Round.rint (inject_Z z) = z.
Proof.
  unfold Round.rint. rewrite Qfloor_Z.
  destruct (Qcompare_spec (inject_Z z - inject_Z z) (1 # 2)) as [E | L | G];
    [exfalso | reflexivity | exfalso];
    revert E || revert G; generalize (inject_Z z); intros f H; Lqa.lra.
Qed.

Lemma rint_monotone (q q' : Q) : q <= q' -> (Round.rint q <= Round.rint q')%Z.
Proof.
  intros H. destruct (Z_le_gt_dec (Round.rint q) (Round.rint q')) as [L | G];
    [exact L | exfalso].
  assert (G' : (Round.rint q' + 1 <= Round.rint q)%Z) by lia.
  rewrite Zle_Qle, inject_Z_plus in G'. change (inject_Z 1) with 1 in G'.
  destruct (rint_nearest q) as [_ Hi]. destruct (rint_nearest q') as [Lo _].
  assert (E : q == q') by (apply Qle_antisym; [exact H | Lqa.lra]).
  apply rint_comp in E. lia.
Qed.

(** X4: rounding keeps the order of the numbers.  Of two raw sums the
    larger is never shown as the smaller value in a table, neither by the
    conversion to two decimals of a million nor by the rounding to whole
    numbers. *)
Theorem rounding_keeps_order (q q' : Q) :
  q <= q' ->
  displayed q <= displayed q' /\ Round.round0 q <= Round.round0 q'.
Proof.
  intros H. split.
  - unfold displayed, Round.round2.
    assert (M : (Round.rint (Round.div_1e6 q * 100)
                 <= Round.rint (Round.div_1e6 q' * 100))%Z).
    { apply rint_monotone. unfold Round.div_1e6.
      setoid_replace (q / 1000000 * 100) with (q * (1 # 10000)) by field.
      setoid_replace (q' / 1000000 * 100) with (q' * (1 # 10000)) by field.
      Lqa.lra. }
    rewrite Zle_Qle in M. revert M.
    generalize (inject_Z (Round.rint (Round.div_1e6 q * 100))) as x.
    generalize (inject_Z (Round.rint (Round.div_1e6 q' * 100))) as y.
    intros y x M.
    setoid_replace (x / 100) with (x * (1 # 100)) by field.
    setoid_replace (y / 100) with (y * (1 # 100)) by field.
    Lqa.lra.
  - unfold Round.round0. rewrite <- Zle_Qle. apply rint_monotone. exact H.
Qed.

(** X4, witness: 1,234,999 and 1,235,000 are shown as 1.23 and 1.24. *)
Lemma rounding_keeps_order_witness :
  displayed 1234999 <= displayed 1235000 /\ displayed 1234999 == 123 # 100 /\
  displayed 1235000 == 124 # 100.
Proof.
  assert (H : 1234999 <= 1235000) by (vm_compute; discriminate).
  split; [exact (proj1 (rounding_keeps_order 1234999 1235000 H)) |].
  split; reflexivity.
Defined.

(** X5: a rounded number is left as it is by a second rounding, to two
    decimals as to whole numbers, and a whole number is left as it is by
    the rounding of the inventory and harvested-area tables. *)
Theorem rounding_is_idempotent (q : Q) (z : Z) :
  Round.round2 (Round.round2 q) == Round.round2 q /\
  Round.round0 (Round.round0 q) = Round.round0 q /\
  Round.round0 (inject_Z z) = inject_Z z.
Proof.
  split; [| split].
  - unfold Round.round2 at 1 3.
    rewrite (rint_comp (Round.round2 q * 100) (inject_Z (Round.rint (q * 100)))).
    + rewrite rint_Z. reflexivity.
    + unfold Round.round2. field.
  - unfold Round.round0. rewrite rint_Z. reflexivity.
  - unfold Round.round0. rewrite rint_Z. reflexivity.
Qed.

(** ** Order and conservation in the grouped tables *)


Lemma key_leb_total (a b : key) : key_leb a b = false -> key_leb b a = true.
Proof.
  destruct a as [x | s], b as [y | s']; simpl; try congruence.
  - intros H. apply Qle_bool_iff.
    destruct (Qlt_le_dec y x) as [L | L]; [apply Qlt_le_weak; exact L |].
    apply Qle_bool_iff in L. congruence.
  - intros H. destruct (String.leb_total s s') as [T | T]; congruence.
Qed.

Lemma insert_sorted (k : key) (l : list key) :
  Sorted key_le l -> Sorted key_le (insert k l).
Proof.
  induction 1 as [| h t S IH Hd]; simpl; [repeat constructor |].
  destruct (key_leb k h) eqn:E.
  - constructor; [constructor; assumption | constructor; exact E].
  - constructor; [exact IH |].
    destruct Hd as [| h' t' R]; simpl.
    + constructor. apply key_leb_total; exact E.
    + destruct (key_leb k h'); constructor;
        [apply key_leb_total; exact E | exact R].
Qed.

Lemma group_keys_sorted (ks : list (option key)) : Sorted key_le (group_keys ks).
Proof.
  unfold group_keys, GroupBy.sort.
  induction (nodup key_eq_dec (somes ks)) as [| k l IH]; simpl;
    [constructor | apply insert_sorted; exact IH].
Qed.

(** X6: the county table lists every FIPS key of the two tables once, in
    ascending order of the key. *)
Theorem county_rows_sorted_by_fips
        (base : string) (read : string -> M DataFrame) (year : string)
        (n a i crop animal t : DataFrame) :
  load_data base read year = inr (n, a, i, crop, animal, t) ->
  exists fc fa kc ka,
    lookup crop "FIPS" = Some fc /\ keys_of fc = inr kc /\
    lookup animal "FIPS" = Some fa /\ keys_of fa = inr ka /\
    lookup t "FIPS" = Some (key_column fc (group_keys (kc ++ ka))) /\
    Sorted key_le (group_keys (kc ++ ka)) /\
    NoDup (group_keys (kc ++ ka)) /\
    (forall k, In k (group_keys (kc ++ ka)) <-> In (Some k) (kc ++ ka)).
Proof.
  intros H.
  apply load_data_inr in H
    as (path & crop_raw & animal_raw & crop1 & animal1 & _ & _ & _ & _ &
        _ & _ & _ & _ & _ & _ & H).
  apply combine_totals_inr in H
    as (fc & fa & kc & ka & cc & ca & ccat & tc & ta &
        Hfc & Kc & Hfa & Ka & _ & _ & _ & _ & _ & names & _ & ->).
  exists fc, fa, kc, ka.
  destruct (group_keys_spec (kc ++ ka)) as [ND Hin].
  repeat (split; [assumption |]).
  split; [reflexivity |]. split; [apply group_keys_sorted |].
  split; assumption.
Qed.

(** X6, witness: the keys 24001, 24003 and 24005 of the synthetic year. *)
Lemma county_rows_sorted_by_fips_witness :
  exists t fc gs,
    lookup t "FIPS" = Some (key_column fc gs) /\ Sorted key_le gs /\
    lookup t "FIPS"
    = Some (NumCol [Synthetic.num 24001; Synthetic.num 24003; Synthetic.num 24005]).
Proof.
  destruct (load_data Synthetic.base_dir Synthetic.two_rows "2017")
    as [e | [[[[[n a] i] crop] animal] t]] eqn:E; [discriminate E |].
  destruct (county_rows_sorted_by_fips _ _ _ _ _ _ _ _ _ E)
    as (fc & fa & kc & ka & _ & _ & _ & _ & L & S & _).
  exists t, fc, (group_keys (kc ++ ka)). split; [exact L |]. split; [exact S |].
  vm_compute in E. injection E as _ _ _ _ _ <-. reflexivity.
Defined.

Lemma sumQ_zero {A} (l : list A) : sumQ (map (fun _ => 0) l) == 0.
Proof. induction l as [| x l IH]; simpl; [reflexivity | rewrite IH; ring]. Qed.

Lemma sumQ_map_plus {A} (f g : A -> Q) (l : list A) :
  sumQ (map (fun x => f x + g x) l) == sumQ (map f l) + sumQ (map g l).
Proof. induction l as [| x l IH]; simpl; [ring | rewrite IH; ring]. Qed.

Lemma sumQ_map_ext {A} (f g : A -> Q) (l : list A) :
  (forall x, f x == g x) -> sumQ (map f l) == sumQ (map g l).
Proof.
  intros E. induction l as [| x l IH]; simpl; [reflexivity | rewrite IH, E; reflexivity].
Qed.

(** In a sum over distinct keys, one key is met at most once. *)
Lemma sumQ_one_key (k0 : key) (v : Q) (l : list key) :
  NoDup l ->
  sumQ (map (fun k => if key_eqb k k0 then v else 0) l)
  == if in_dec key_eq_dec k0 l then v else 0.
Proof.
  induction 1 as [| k l N ND IH]; simpl; [reflexivity |].
  rewrite IH. unfold key_eqb.
  destruct (key_eq_dec k k0) as [-> | D].
  - destruct (key_eq_dec k0 k0) as [_ | C]; [| congruence].
    destruct (in_dec key_eq_dec k0 l) as [I | _]; [contradiction | ring].
  - destruct (key_eq_dec k k0) as [C | _]; [congruence |].
    destruct (in_dec key_eq_dec k0 l); ring.
Qed.

(** The sums of the groups add up to the sum over the rows that have a
    key. *)
Lemma sum_of_groups (l : list key) (ks : list (option key)) :
  NoDup l -> (forall k, In (Some k) ks -> In k l) ->
  forall xs, sumQ (map (fun k => nansum (select k ks xs)) l) == nansum (keyed ks xs).
Proof.
  intros ND. induction ks as [| [k0 |] ks IH]; intros C xs.
  - simpl. apply sumQ_zero.
  - destruct xs as [| x xs]; [simpl; apply sumQ_zero |].
    simpl keyed. simpl nansum.
    rewrite <- (IH (fun k H => C k (or_intror H)) xs).
    rewrite (sumQ_map_ext _ (fun k => (if key_eqb k k0 then nz x else 0)
                                      + nansum (select k ks xs))).
    + rewrite sumQ_map_plus, (sumQ_one_key k0 (nz x) l ND).
      destruct (in_dec key_eq_dec k0 l) as [_ | N]; [reflexivity |].
      exfalso. apply N, C. left; reflexivity.
    + intros k. simpl. destruct (key_eqb k k0); simpl; ring.
  - destruct xs as [| x xs]; [simpl; apply sumQ_zero |].
    simpl. apply IH. intros k H. apply C. right; exact H.
Qed.

Lemma keyed_app {A} (ks1 ks2 : list (option key)) (xs1 xs2 : list A) :
  List.length ks1 = List.length xs1 ->
  keyed (ks1 ++ ks2) (xs1 ++ xs2) = keyed ks1 xs1 ++ keyed ks2 xs2.
Proof.
  revert xs1; induction ks1 as [| [k |] ks1 IH]; intros [| x xs1] L;
    simpl in L; try discriminate; simpl.
  - destruct ks2 as [| [? |] ?]; reflexivity.
  - injection L as L. rewrite IH by assumption. reflexivity.
  - injection L as L. apply IH; assumption.
Qed.

Lemma keyed_all {A} (ks : list (option key)) (xs : list A) :
  List.length ks = List.length xs -> Forall (fun k => k <> None) ks -> keyed ks xs = xs.
Proof.
  revert xs; induction ks as [| [k |] ks IH]; intros [| x xs] L F;
    simpl in L; try discriminate; simpl; [reflexivity | |].
  - injection L as L. inversion F; subst. rewrite IH by assumption. reflexivity.
  - inversion F; subst. congruence.
Qed.

(** X7: grouping by county loses nothing: the totals of the county table
    add up to the total loss of all crop-stage and animal-stage rows that
    have a FIPS key (a row without one belongs to no county), and so to
    the total loss of all rows when none lacks its key.  Stated for row
    totals that are whole numbers whose absolute values add up to
    [2 ^ 48] at most, on which the sums of the program are exact and do
    not depend on the order of the additions. *)
Theorem county_totals_add_up
        (base : string) (read : string -> M DataFrame) (year : string)
        (n a i crop animal t : DataFrame) :
  load_data base read year = inr (n, a, i, crop, animal, t) ->
  rectangular crop = true -> rectangular animal = true ->
  exists fc fa kc ka tc ta totals,
    lookup crop "FIPS" = Some fc /\ keys_of fc = inr kc /\
    lookup animal "FIPS" = Some fa /\ keys_of fa = inr ka /\
    lookup crop "total_nitrogen_loss" = Some (NumCol tc) /\
    lookup animal "total_nitrogen_loss" = Some (NumCol ta) /\
    lookup t "total_nitrogen_loss" = Some (NumCol totals) /\
    (exact_numbers (tc ++ ta) ->
     column_sum totals == column_sum (keyed kc tc) + column_sum (keyed ka ta) /\
     (Forall (fun k => k <> None) (kc ++ ka) ->
      column_sum totals == column_sum tc + column_sum ta)).
Proof.
  intros H Rc Ra.
  apply load_data_inr in H
    as (path & crop_raw & animal_raw & crop1 & animal1 & _ & _ & _ & _ &
        _ & _ & _ & _ & _ & _ & H).
  apply combine_totals_inr in H
    as (fc & fa & kc & ka & cc & ca & ccat & tc & ta &
        Hfc & Kc & Hfa & Ka & _ & _ & _ & Htc & Hta & names & _ & ->).
  assert (Lc : List.length kc = List.length tc).
  { rewrite (keys_of_length _ _ Kc), (rectangular_lookup _ _ _ Rc Hfc).
    symmetry. exact (rectangular_lookup _ _ _ Rc Htc). }
  assert (La : List.length ka = List.length ta).
  { rewrite (keys_of_length _ _ Ka), (rectangular_lookup _ _ _ Ra Hfa).
    symmetry. exact (rectangular_lookup _ _ _ Ra Hta). }
  exists fc, fa, kc, ka, tc, ta. eexists.
  repeat (split; [eassumption |]).
  split; [reflexivity |]. intros _. rewrite <- !nansum_column_sum.
  destruct (group_keys_spec (kc ++ ka)) as [ND Hin].
  assert (S : nansum (map (fun k => Some (nansum (select k (kc ++ ka) (tc ++ ta))))
                          (group_keys (kc ++ ka)))
              == nansum (keyed kc tc) + nansum (keyed ka ta)).
  { rewrite <- nansum_app, <- keyed_app by exact Lc.
    rewrite <- (sum_of_groups (group_keys (kc ++ ka)) (kc ++ ka) ND
                              (fun k H => proj2 (Hin k) H)).
    clear. induction (group_keys (kc ++ ka)) as [| k l IH]; simpl;
      [reflexivity | rewrite IH; reflexivity]. }
  split; [exact S |].
  intros F. rewrite S. apply Forall_app in F as [Fc Fa].
  rewrite (keyed_all _ _ Lc Fc), (keyed_all _ _ La Fa). reflexivity.
Qed.

(** X7, witness: the county totals of the synthetic year add up to the
    24 million of its four rows. *)
Lemma county_totals_add_up_witness :
  exists t totals,
    lookup t "total_nitrogen_loss" = Some (NumCol totals) /\
    column_sum totals == 24000000.
Proof.
  destruct (load_data Synthetic.base_dir Synthetic.two_rows "2017")
    as [e | [[[[[n a] i] crop] animal] t]] eqn:E; [discriminate E |].
  pose proof E as E'. vm_compute in E'. injection E' as <- <- <- <- <- <-.
  destruct (county_totals_add_up _ _ _ _ _ _ _ _ _ E eq_refl eq_refl)
    as (fc & fa & kc & ka & tc & ta & totals & Hfc & Kc & Hfa & Ka & Htc & Hta & L & S).
  match type of E with _ = inr (_, ?t) => exists t, totals end.
  split; [exact L |].
  simpl in Hfc, Hfa, Htc, Hta.
  injection Hfc as <-. injection Hfa as <-. injection Htc as <-. injection Hta as <-.
  simpl in Kc, Ka. injection Kc as <-. injection Ka as <-.
  destruct S as [_ S]; [simpl; solve_exact_numbers |].
  rewrite S; [reflexivity |].
  repeat constructor; discriminate.
Defined.

(** ** When the loader returns and when it raises *)

Lemma dict_get_valid (base year : string) :
  In year ["2017"; "2030"; "2050"] ->
  dict_get (data_paths base) year = inr (path_join (path_join base "data") year).
Proof.
  simpl. intros [<- | [<- | [<- | []]]]; reflexivity.
Qed.

(** X8: for a valid year the five files are read in a fixed order, and the
    first one that cannot be read decides the outcome: the loader raises
    the exception of that read, and so does the callback. *)
Theorem first_unreadable_file_fails_load
        (base : string) (read : string -> M DataFrame) (year : string)
        (before after : list string) (p : string) (e : exn) :
  In year ["2017"; "2030"; "2050"] ->
  year_files (path_join (path_join base "data") year) = before ++ p :: after ->
  Forall (fun q => exists df, read q = inr df) before ->
  read p = inl e ->
  load_data base read year = inl e /\ update_dashboard base read year = inl e.
Proof.
  intros V S F R.
  assert (L : load_data base read year = inl e).
  { unfold load_data. rewrite (dict_get_valid _ _ V). cbn [bind].
    unfold year_files in S. cbn [map] in S.
    destruct before as [| b1 [| b2 [| b3 [| b4 [| b5 before]]]]];
      cbn [app] in S; injection S; intros; subst;
      repeat match goal with
        | F : Forall _ (_ :: _) |- _ => inversion F as [| ? ? [? ?] ?]; subst; clear F
        end;
      repeat match goal with
        | E : read _ = _ |- _ => rewrite E; clear E; cbn [bind]
        end;
      try reflexivity.
    destruct before; discriminate. }
  split; [exact L |]. unfold update_dashboard. rewrite L. reflexivity.
Qed.

(** X8, witness: the synthetic tree holds no year 2030, so its first file
    is not found. *)
Lemma first_unreadable_file_fails_load_witness :
  update_dashboard Synthetic.base_dir Synthetic.two_rows "2030"
  = inl (Raise "FileNotFoundError" "/srv/app/data/2030/nitrogen_losses_summary.csv").
Proof.
  refine (proj2 (first_unreadable_file_fails_load
                   Synthetic.base_dir Synthetic.two_rows "2030" [] _ _ _ _ _ _ _)).
  - simpl; tauto.
  - reflexivity.
  - constructor.
  - reflexivity.
Defined.

(** A name that the renaming neither changes nor produces is looked up in
    the renamed table as in the table read from the file. *)
Lemma lookup_renamed (df : DataFrame) (name : string) :
  String.prefix "selfloop" name = false ->
  String.prefix "within_county" name = false ->
  lookup (map (fun nc => (rename_column (fst nc), snd nc)) df) name = lookup df name.
Proof.
  intros S W. induction df as [| [n c] df IH]; simpl; [reflexivity |].
  rewrite IH.
  assert (E : String.eqb (rename_column n) name = String.eqb n name).
  { destruct (Str.startswith n "selfloop") eqn:P.
    - destruct (prefix_split _ _ P) as [rest ->].
      rewrite rename_column_selfloop.
      destruct (String.eqb_spec ("within_county"
                                 ++ Str.replace rest "selfloop" "within_county") name)
        as [<- | _].
      + rewrite prefix_append in W. discriminate.
      + destruct (String.eqb_spec ("selfloop" ++ rest) name) as [<- | _];
          [| reflexivity].
        rewrite prefix_append in S. discriminate.
    - rewrite rename_column_other by exact P. reflexivity. }
  rewrite E. reflexivity.
Qed.

Lemma getitems_missing (df : DataFrame) (names : list string) :
  (exists c, In c names /\ lookup df c = None) ->
  exists c, In c names /\ lookup df c = None /\ getitems df names = inl (KeyError c).
Proof.
  unfold getitems. induction names as [| n names IH]; intros (c & HIn & L).
  - destruct HIn.
  - cbn [mapM]. unfold getitem at 1. destruct (lookup df n) as [c0 |] eqn:Ln.
    + destruct HIn as [-> | HIn]; [congruence |].
      destruct (IH (ex_intro _ c (conj HIn L))) as (c' & HIn' & L' & G).
      exists c'. split; [right; exact HIn' |]. split; [exact L' |].
      cbn [bind ret]. rewrite G. reflexivity.
    + exists n. split; [left; reflexivity |]. split; [exact Ln | reflexivity].
Qed.

(** X9: when the five files of a valid year are read and the crop-stage
    file lacks nitrogen_loss1 or nitrogen_loss2, the loader raises
    [KeyError] on a loss column that is missing, and so does the callback,
    whatever the other files hold. *)
Theorem missing_loss_column_is_KeyError
        (base : string) (read : string -> M DataFrame) (year : string)
        (n a i crop_raw animal_raw : DataFrame) :
  In year ["2017"; "2030"; "2050"] ->
  map read (year_files (path_join (path_join base "data") year))
  = [inr n; inr a; inr i; inr crop_raw; inr animal_raw] ->
  (exists c, In c crop_loss_columns /\ lookup crop_raw c = None) ->
  exists c,
    In c crop_loss_columns /\ lookup crop_raw c = None /\
    load_data base read year = inl (KeyError c) /\
    update_dashboard base read year = inl (KeyError c).
Proof.
  intros V R (c & HIn & L).
  unfold year_files in R. cbn [map] in R.
  injection R as Rn Ra Ri Rc Rm.
  destruct (getitems_missing
              (map (fun nc => (rename_column (fst nc), snd nc)) crop_raw)
              crop_loss_columns) as (c' & HIn' & L' & G).
  { exists c. split; [exact HIn |]. rewrite lookup_renamed; [exact L | |];
      simpl in HIn; destruct HIn as [<- | [<- | []]]; reflexivity. }
  assert (Lc : lookup crop_raw c' = None).
  { rewrite lookup_renamed in L'; [exact L' | |];
      simpl in HIn'; destruct HIn' as [<- | [<- | []]]; reflexivity. }
  assert (E : load_data base read year = inl (KeyError c')).
  { unfold load_data. rewrite (dict_get_valid _ _ V). cbn [bind].
    rewrite Rn, Ra, Ri, Rc, Rm. cbn [bind].
    rewrite !rename_selfloop_inr. cbn [bind].
    unfold add_total_loss at 1. rewrite G. reflexivity. }
  exists c'. split; [exact HIn' |]. split; [exact Lc |]. split; [exact E |].
  unfold update_dashboard. rewrite E. reflexivity.
Qed.

(** X9, witness: a crop-stage file without nitrogen_loss2. *)
Lemma missing_loss_column_is_KeyError_witness :
  exists c,
    In c crop_loss_columns /\
    update_dashboard Synthetic.base_dir Faulty.no_loss2 "2017" = inl (KeyError c).
Proof.
  assert (V : In "2017" ["2017"; "2030"; "2050"]) by (simpl; tauto).
  assert (M : exists c, In c crop_loss_columns /\
                        lookup (Faulty.drop_column "nitrogen_loss2" Synthetic.crop_rows) c
                        = None)
    by (exists "nitrogen_loss2"; split; [simpl; tauto | reflexivity]).
  destruct (missing_loss_column_is_KeyError
              Synthetic.base_dir Faulty.no_loss2 "2017" _ _ _ _ _ V eq_refl M)
    as (c & HIn & _ & _ & U).
  exists c. split; assumption.
Defined.

Lemma getitems_returns (df : DataFrame) (names : list string) (cs : list column) :
  Forall2 (fun name c => lookup df name = Some c) names cs ->
  getitems df names = inr (combine names cs).
Proof.
  unfold getitems. induction 1 as [| name c names cs L _ IH]; [reflexivity |].
  cbn [mapM combine]. unfold getitem at 1. rewrite L. cbn [bind ret].
  rewrite IH. reflexivity.
Qed.

Lemma sum_axis1_returns (names : list string) (cs : list (list (option Q))) :
  List.length names = List.length cs ->
  exists t, sum_axis1 (combine names (map NumCol cs)) = inr t.
Proof.
  intros L. unfold sum_axis1.
  assert (E : mapM (fun nc => as_num (snd nc)) (combine names (map NumCol cs)) = inr cs).
  { revert cs L. induction names as [| name names IH]; intros [| c cs] L;
      simpl in L; try discriminate; [reflexivity |].
    injection L as L. cbn [map combine mapM]. simpl. rewrite (IH _ L). reflexivity. }
  rewrite E. cbn [bind ret]. eexists. reflexivity.
Qed.

Lemma add_total_loss_returns (df : DataFrame) (cols : list string)
      (cs : list (list (option Q))) :
  Forall2 (fun name xs => lookup df name = Some (NumCol xs)) cols cs ->
  exists t, add_total_loss df cols = inr (setitem df "total_nitrogen_loss" (NumCol t)).
Proof.
  intros F. unfold add_total_loss.
  rewrite (getitems_returns df cols (map NumCol cs)).
  - cbn [bind].
    destruct (sum_axis1_returns cols cs (Forall2_length F)) as [t ->].
    exists t. reflexivity.
  - clear - F. induction F; constructor; assumption.
Qed.

Lemma combine_totals_returns (crop animal : DataFrame)
      (f1 f2 t1 t2 : list (option Q)) (c1 c2 : list (option string)) :
  lookup crop "FIPS" = Some (NumCol f1) -> lookup animal "FIPS" = Some (NumCol f2) ->
  lookup crop "county" = Some (ObjCol c1) -> lookup animal "county" = Some (ObjCol c2) ->
  lookup crop "total_nitrogen_loss" = Some (NumCol t1) ->
  lookup animal "total_nitrogen_loss" = Some (NumCol t2) ->
  exists t, combine_totals crop animal = inr t.
Proof.
  intros F1 F2 C1 C2 T1 T2.
  unfold combine_totals, total_columns, getitems, getitem. cbn [mapM].
  rewrite F1, F2, C1, C2, T1, T2. cbn [bind ret].
  unfold concat. cbn [combine mapM fst snd concat_col bind ret].
  unfold groupby_agg, getitem. cbn [lookup String.eqb Ascii.eqb Bool.eqb].
  cbn [keys_of bind ret mapM fst snd lookup String.eqb Ascii.eqb Bool.eqb agg].
  eexists. reflexivity.
Qed.

(** X10: the loader returns for every valid year whose five files are
    read, whose crop-stage file has numeric columns nitrogen_loss1 and
    nitrogen_loss2, whose animal-stage file has numeric columns
    nitrogen_loss3 to nitrogen_loss7, and whose two stage files have a
    numeric FIPS column and a county column of strings.  The first three
    tables it returns are the files as read. *)
Theorem load_data_returns
        (base : string) (read : string -> M DataFrame) (year : string)
        (n a i crop_raw animal_raw : DataFrame)
        (closs aloss : list (list (option Q)))
        (f1 f2 : list (option Q)) (c1 c2 : list (option string)) :
  In year ["2017"; "2030"; "2050"] ->
  map read (year_files (path_join (path_join base "data") year))
  = [inr n; inr a; inr i; inr crop_raw; inr animal_raw] ->
  Forall2 (fun name xs => lookup crop_raw name = Some (NumCol xs)) crop_loss_columns closs ->
  Forall2 (fun name xs => lookup animal_raw name = Some (NumCol xs)) animal_loss_columns aloss ->
  lookup crop_raw "FIPS" = Some (NumCol f1) ->
  lookup animal_raw "FIPS" = Some (NumCol f2) ->
  lookup crop_raw "county" = Some (ObjCol c1) ->
  lookup animal_raw "county" = Some (ObjCol c2) ->
  exists crop animal t,
    load_data base read year = inr (n, a, i, crop, animal, t).
Proof.
  intros V R Fc Fa F1 F2 C1 C2.
  unfold year_files in R. cbn [map] in R. injection R as Rn Ra Ri Rc Rm.
  set (ren := fun df : DataFrame => map (fun nc => (rename_column (fst nc), snd nc)) df).
  assert (Fc' : Forall2 (fun name xs => lookup (ren crop_raw) name = Some (NumCol xs))
                        crop_loss_columns closs).
  { eapply Forall2_impl_in; [| exact Fc]. simpl. intros name xs HIn L.
    unfold ren. rewrite lookup_renamed; [exact L | |];
      repeat (destruct HIn as [<- | HIn]; [reflexivity |]); contradiction. }
  assert (Fa' : Forall2 (fun name xs => lookup (ren animal_raw) name = Some (NumCol xs))
                        animal_loss_columns aloss).
  { eapply Forall2_impl_in; [| exact Fa]. simpl. intros name xs HIn L.
    unfold ren. rewrite lookup_renamed; [exact L | |];
      repeat (destruct HIn as [<- | HIn]; [reflexivity |]); contradiction. }
  destruct (add_total_loss_returns _ _ _ Fc') as [tc Tc].
  destruct (add_total_loss_returns _ _ _ Fa') as [ta Ta].
  destruct (combine_totals_returns
              (setitem (ren crop_raw) "total_nitrogen_loss" (NumCol tc))
              (setitem (ren animal_raw) "total_nitrogen_loss" (NumCol ta))
              f1 f2 tc ta c1 c2) as [t T];
    try apply lookup_setitem_same;
    try (rewrite lookup_setitem_other by discriminate;
         unfold ren; rewrite lookup_renamed by reflexivity; assumption).
  do 3 eexists.
  unfold load_data. rewrite (dict_get_valid _ _ V). cbn [bind].
  rewrite Rn, Ra, Ri, Rc, Rm. cbn [bind].
  rewrite !rename_selfloop_inr. cbn [bind]. fold (ren crop_raw) (ren animal_raw).
  rewrite Tc, Ta. cbn [bind]. rewrite T. reflexivity.
Qed.

(** X10, witness: the synthetic year 2017. *)
Lemma load_data_returns_witness :
  exists crop animal t,
    load_data Synthetic.base_dir Synthetic.two_rows "2017"
    = inr (Synthetic.summary, Synthetic.area, Synthetic.inventory, crop, animal, t).
Proof.
  refine (load_data_returns Synthetic.base_dir Synthetic.two_rows "2017"
            _ _ _ Synthetic.crop_rows Synthetic.animal_rows
            [_; _] [_; _; _; _; _] _ _ _ _ _ eq_refl _ _ eq_refl eq_refl eq_refl eq_refl).
  - simpl; tauto.
  - repeat constructor.
  - repeat constructor.
Defined.

(** ** The shape of the loaded tables *)

Lemma rectangular_forall (df : DataFrame) :
  rectangular df = true <-> Forall (fun nc => col_len (snd nc) = len df) df.
Proof.
  unfold rectangular. rewrite forallb_forall, Forall_forall.
  split; intros H x HIn; [apply Nat.eqb_eq | apply Nat.eqb_eq]; apply H; exact HIn.
Qed.

Lemma setitem_rectangular (df : DataFrame) (name : string) (c : column) :
  df <> [] -> rectangular df = true -> col_len c = len df ->
  rectangular (setitem df name c) = true /\ len (setitem df name c) = len df.
Proof.
  intros NE R L. apply rectangular_forall in R.
  assert (Len : len (setitem df name c) = len df).
  { unfold setitem. destruct (has_column df name).
    - destruct df as [| [n0 c0] df]; [congruence |]. simpl.
      destruct (String.eqb n0 name); [exact L | reflexivity].
    - destruct df as [| [n0 c0] df]; [congruence | reflexivity]. }
  split; [| exact Len].
  apply rectangular_forall. rewrite Len. unfold setitem.
  destruct (has_column df name).
  - apply Forall_map. eapply Forall_impl; [| exact R].
    intros [n0 c0] H. simpl in *. destruct (String.eqb n0 name); simpl; assumption.
  - apply Forall_app. split; [exact R | repeat constructor; exact L].
Qed.

Lemma renamed_rectangular (df : DataFrame) :
  rectangular (map (fun nc => (rename_column (fst nc), snd nc)) df) = rectangular df /\
  len (map (fun nc => (rename_column (fst nc), snd nc)) df) = len df.
Proof.
  assert (L : len (map (fun nc => (rename_column (fst nc), snd nc)) df) = len df)
    by (destruct df as [| [n0 c0] df]; reflexivity).
  split; [| exact L]. unfold rectangular. rewrite L.
  generalize (len df) as m. clear L. intros m.
  induction df as [| [n0 c0] df IH]; simpl; [reflexivity | rewrite IH; reflexivity].
Qed.

Lemma add_total_loss_rectangular (df df' : DataFrame) (c0 : string) (cols : list string) :
  add_total_loss df (c0 :: cols) = inr df' ->
  ~ In "total_nitrogen_loss" (c0 :: cols) ->
  rectangular df = true ->
  rectangular df' = true /\ len df' = len df.
Proof.
  intros H N R.
  apply add_total_loss_inr in H as (cs & t & -> & F & Lt & _); [| exact N].
  inversion F as [| ? xs ? cs' L0 _]; subst.
  rewrite lookup_setitem_other in L0
    by (intros E; apply N; left; symmetry; exact E).
  apply setitem_rectangular; [| exact R |].
  - intros ->. discriminate L0.
  - simpl. rewrite Lt. exact (rectangular_lookup _ _ _ R L0).
Qed.

(** X11: the loader keeps the tables rectangular.  When the crop-stage
    (animal-stage) file is a table whose columns all have the same number
    of rows, so is the table the loader returns for it, with the same
    number of rows: the total-loss column has one entry per row. *)
Theorem load_data_keeps_rectangular
        (base : string) (read : string -> M DataFrame) (year : string)
        (n a i crop animal t : DataFrame) :
  load_data base read year = inr (n, a, i, crop, animal, t) ->
  exists path crop_raw animal_raw,
    dict_get (data_paths base) year = inr path /\
    read (path_join path "crop_processing_nitrogen.csv") = inr crop_raw /\
    read (path_join path "animal_stage_nitrogen.csv") = inr animal_raw /\
    (rectangular crop_raw = true ->
     rectangular crop = true /\ len crop = len crop_raw) /\
    (rectangular animal_raw = true ->
     rectangular animal = true /\ len animal = len animal_raw).
Proof.
  intros H.
  apply load_data_inr in H
    as (path & crop_raw & animal_raw & crop1 & animal1 & Hp & _ & _ & _ &
        Hc & Ha & Hrc & Hra & Htc & Hta & _).
  rewrite rename_selfloop_inr in Hrc, Hra.
  injection Hrc as <-. injection Hra as <-.
  exists path, crop_raw, animal_raw. repeat (split; [assumption |]).
  split; intros R.
  - destruct (renamed_rectangular crop_raw) as [E L]. rewrite <- L.
    eapply add_total_loss_rectangular; [exact Htc | | rewrite E; exact R].
    simpl. intros [D | [D | []]]; discriminate D.
  - destruct (renamed_rectangular animal_raw) as [E L]. rewrite <- L.
    eapply add_total_loss_rectangular; [exact Hta | | rewrite E; exact R].
    simpl. intros [D | [D | [D | [D | [D | []]]]]]; discriminate D.
Qed.

(** X11, witness: the two tables of the synthetic year keep their two
    rows. *)
Lemma load_data_keeps_rectangular_witness :
  exists crop animal,
    rectangular crop = true /\ len crop = 2%nat /\
    rectangular animal = true /\ len animal = 2%nat.
Proof.
  destruct (load_data Synthetic.base_dir Synthetic.two_rows "2017")
    as [e | [[[[[n a] i] crop] animal] t]] eqn:E; [discriminate E |].
  destruct (load_data_keeps_rectangular _ _ _ _ _ _ _ _ _ E)
    as (path & crop_raw & animal_raw & Hp & Hc & Ha & Rc & Ra).
  vm_compute in Hp. injection Hp as <-.
  vm_compute in Hc, Ha. injection Hc as <-. injection Ha as <-.
  destruct (Rc eq_refl) as [R1 L1]. destruct (Ra eq_refl) as [R2 L2].
  exists crop, animal. repeat split; assumption.
Defined.

(** ** The shape of the outputs *)

Lemma choropleth_title (df : DataFrame) (l c h d title : string) (fig : Choropleth) :
  choropleth df l c h d title = inr fig -> ch_title fig = title.
Proof.
  unfold choropleth; intros H.
  apply bind_inr in H as (x1 & _ & H). apply bind_inr in H as (x2 & _ & H).
  apply bind_inr in H as (x3 & _ & H). apply bind_inr in H as (x4 & _ & H).
  injection H as <-. reflexivity.
Qed.

Lemma loss_maps_titles (items : list (string * string)) :
  forall (i : nat) (st : frames) (r : list Choropleth * frames),
    loss_maps i items st = inr r ->
    map ch_title (fst r)
    = map (fun p => ("Nitrogen Loss Stage " ++ Str.of_nat (fst p + 1) ++ ": "
                     ++ snd (snd p))%string)
          (combine (seq i (List.length items)) items).
Proof.
  induction items as [| [col lab] items IH]; intros i st r H; simpl in H.
  - injection H as <-. reflexivity.
  - apply bind_inr in H as (st1 & _ & H). apply bind_inr in H as (fig & Ef & H).
    apply bind_inr in H as (r' & Er & H). injection H as <-.
    cbn [fst List.length seq combine map snd]. f_equal.
    + exact (choropleth_title _ _ _ _ _ _ _ Ef).
    + exact (IH _ _ _ Er).
Qed.

Lemma stage_maps_titles (w : which) (cols : list string) :
  forall (st : frames) (r : list Choropleth * frames),
    stage_maps w cols st = inr r ->
    map ch_title (fst r) = map (fun col => Str.title (Str.replace col "_" " ")) cols.
Proof.
  induction cols as [| col cols IH]; intros st r H; simpl in H.
  - injection H as <-. reflexivity.
  - apply bind_inr in H as (st1 & _ & H). apply bind_inr in H as (fig & Ef & H).
    apply bind_inr in H as (r' & Er & H). injection H as <-.
    cbn [fst map]. f_equal.
    + exact (choropleth_title _ _ _ _ _ _ _ Ef).
    + exact (IH _ _ Er).
Qed.

Lemma set_columns_columns (df df' : DataFrame) (names : list string) :
  set_columns df names = inr df' -> columns df' = names.
Proof.
  unfold set_columns.
  destruct (Nat.eqb_spec (List.length names) (List.length df)) as [L | _];
    [| discriminate].
  intros H; injection H as <-. unfold columns.
  rewrite <- (length_map snd) in L. revert L. generalize (map snd df) as cs.
  induction names as [| name names IH]; intros [| c cs] L; simpl in L;
    try discriminate; [reflexivity |].
  simpl. f_equal. apply IH. lia.
Qed.

Lemma commodity_table_columns (df t : DataFrame) (cols : list string) :
  commodity_table df cols = inr t -> columns t = table_header.
Proof.
  unfold commodity_table; intros H.
  apply bind_inr in H as (t1 & _ & H). apply bind_inr in H as (t2 & _ & H).
  apply bind_inr in H as (c1 & _ & H). apply bind_inr in H as (c2 & _ & H).
  exact (set_columns_columns _ _ _ H).
Qed.

Lemma stage_sections_shape (stages : list (which * list string)) :
  forall (st : frames) (r : list StageSection * frames),
    stage_sections stages st = inr r ->
    Forall2 (fun stage sec =>
               map ch_title (sec_maps sec)
               = map (fun col => Str.title (Str.replace col "_" " ")) (snd stage) /\
               dt_columns (sec_table sec) = table_header)
            stages (fst r).
Proof.
  induction stages as [| [w cols] stages IH]; intros st r H; simpl in H.
  - injection H as <-. constructor.
  - apply bind_inr in H as (m & Em & H). apply bind_inr in H as (t & Et & H).
    apply bind_inr in H as (r' & Er & H). injection H as <-.
    constructor; [| exact (IH _ _ Er)].
    split; [exact (stage_maps_titles _ _ _ _ Em) |].
    exact (commodity_table_columns _ _ _ Et).
Qed.

Lemma loss_table_shape (crop animal tab : DataFrame) :
  loss_table crop animal = inr tab ->
  columns tab = ["Nitrogen Loss ID"; "Nitrogen Loss Type"; "Total (K Tons)"] /\
  rectangular tab = true /\ len tab = 8%nat /\
  lookup tab "Nitrogen Loss Type"
  = Some (ObjCol (map (fun l => Some (snd l)) nitrogen_loss_labels
                  ++ [Some "Total Nitrogen Loss"])).
Proof.
  unfold loss_table; intros H.
  apply bind_inr in H as (c & Ec & H). apply bind_inr in H as (cs & Ecs & H).
  apply bind_inr in H as (a & Ea & H). apply bind_inr in H as (asums & Eas & H).
  injection H as <-.
  destruct (column_sums_inr _ _ _ _ Ec Ecs) as (ccols & Fc & ->).
  destruct (column_sums_inr _ _ _ _ Ea Eas) as (acols & Fa & ->).
  unfold crop_loss_columns, animal_loss_columns in Fc, Fa. inv_Forall2.
  repeat split.
Qed.

(** X12: whatever the data, a run of the callback that returns gives the
    same page: eight loss maps with the titles of the seven stages and of
    the county total, three trade sections of three maps each, titled by
    their flow columns, each with a table of the four columns Commodity,
    Import, Export and Within County, nothing in the trade-maps slot, and a
    loss table of three columns and eight rows. *)
Theorem outputs_have_fixed_shape
        (base : string) (read : string -> M DataFrame) (year : string)
        (out : Outputs) :
  update_dashboard base read year = inr out ->
  map ch_title (chloropleth_maps out)
  = [ "Nitrogen Loss Stage 1: N input not taken by crop";
      "Nitrogen Loss Stage 2: Crop processing N loss";
      "Nitrogen Loss Stage 3: Feed waste & manure loss";
      "Nitrogen Loss Stage 4: Slaughtering/milking/laying N loss";
      "Nitrogen Loss Stage 5: Food processing N loss";
      "Nitrogen Loss Stage 6: Food N waste";
      "Nitrogen Loss Stage 7: Human N waste";
      "Total Nitrogen Loss by County" ] /\
  map (fun s => map ch_title (sec_maps s)) (import_export_tables out)
  = [ [ "Import Crop Processing Nitrogen"; "Export Crop Processing Nitrogen";
        "Within County Crop Processing Nitrogen" ];
      [ "Import Animal Nitrogen"; "Export Animal Nitrogen";
        "Within County Animal Nitrogen" ];
      [ "Import Meat Nitrogen"; "Export Meat Nitrogen";
        "Within County Meat Nitrogen" ] ] /\
  Forall (fun s => dt_columns (sec_table s) = table_header) (import_export_tables out) /\
  import_export_maps out = [] /\
  dt_columns (nitrogen_loss_table out)
  = ["Nitrogen Loss ID"; "Nitrogen Loss Type"; "Total (K Tons)"] /\
  rectangular (dt_data (nitrogen_loss_table out)) = true /\
  len (dt_data (nitrogen_loss_table out)) = 8%nat.
Proof.
  intros H.
  apply update_dashboard_inr in H
    as (n & a & i & crop & animal & t & r & fig & tab & s & inv &
        _ & Hm & Hf & Ht & Hs & _ & ->).
  cbn [chloropleth_maps import_export_tables import_export_maps nitrogen_loss_table
       data_table dt_columns dt_data].
  apply loss_maps_titles in Hm. apply stage_sections_shape in Hs.
  apply loss_table_shape in Ht as (Tc & Tr & Tl & _).
  unfold total_loss_map in Hf.
  apply bind_inr in Hf as (c & _ & Hf). apply bind_inr in Hf as (lg & _ & Hf).
  apply choropleth_title in Hf.
  split; [rewrite map_app, Hm; cbn [map]; rewrite Hf; reflexivity |].
  unfold stage_dfs, stage_columns in Hs. cbn [combine] in Hs. inv_Forall2.
  repeat match goal with
         | C : _ /\ _ |- _ => destruct C
         end.
  cbn [map fst snd] in *.
  split; [repeat (f_equal; try assumption) |].
  split; [repeat constructor; assumption |].
  repeat split; assumption.
Qed.

(** X12, witness: the page of the synthetic year. *)
Lemma outputs_have_fixed_shape_witness :
  exists out,
    update_dashboard Synthetic.base_dir Synthetic.two_rows "2017" = inr out /\
    List.length (chloropleth_maps out) = 8%nat /\
    import_export_maps out = [] /\
    len (dt_data (nitrogen_loss_table out)) = 8%nat.
Proof.
  destruct (update_dashboard Synthetic.base_dir Synthetic.two_rows "2017")
    as [e | out] eqn:E; [vm_compute in E; discriminate E |].
  destruct (outputs_have_fixed_shape _ _ _ _ E) as (T & _ & _ & M & _ & _ & L).
  exists out. split; [reflexivity |].
  split; [rewrite <- (length_map ch_title), T; reflexivity |].
  split; assumption.
Defined.

(** ** The trade sections *)

(** X13: the second and the third trade section (animal nitrogen and meat
    nitrogen) are built from one and the same table, the animal-stage
    table, so their two commodity tables list the same commodities in the
    same order. *)
Theorem animal_and_meat_tables_list_same_commodities
        (base : string) (read : string -> M DataFrame) (year : string)
        (out : Outputs) :
  update_dashboard base read year = inr out ->
  exists s1 s2 s3,
    import_export_tables out = [s1; s2; s3] /\
    lookup (dt_data (sec_table s2)) "Commodity"
    = lookup (dt_data (sec_table s3)) "Commodity".
Proof.
  intros H.
  apply update_dashboard_inr in H
    as (n & a & i & crop & animal & t & r & fig & tab & s & inv &
        _ & _ & _ & _ & Hs & _ & ->).
  cbn [import_export_tables].
  apply stage_sections_inr in Hs as [Fs _].
  unfold stage_dfs, stage_columns in Fs. cbn [combine] in Fs.
  inversion Fs as [| st1 s1 l1 r1 P1 F1]; subst.
  inversion F1 as [| st2 s2 l2 r2 P2 F2]; subst.
  inversion F2 as [| st3 s3 l3 r3 P3 F3]; subst.
  inversion F3; subst.
  exists s1, s2, s3. split; [reflexivity |].
  destruct P2 as [_ (df2 & K2 & T2)]. destruct P3 as [_ (df3 & K3 & T3)].
  cbn [fst snd] in *.
  apply commodity_table_inr in T2 as (names2 & ? & ? & ? & L2 & _ & ->);
    [| simpl; tauto].
  apply commodity_table_inr in T3 as (names3 & ? & ? & ? & L3 & _ & ->);
    [| simpl; tauto].
  rewrite K2 in L2 by reflexivity. rewrite K3 in L3 by reflexivity.
  rewrite L2 in L3. injection L3 as <-. reflexivity.
Qed.

(** X13, witness: both tables of the synthetic year list Beef Cattle. *)
Lemma animal_and_meat_tables_list_same_commodities_witness :
  exists s1 s2 s3,
    option_map import_export_tables
               (match update_dashboard Synthetic.base_dir Synthetic.two_rows "2017" with
                | inr out => Some out
                | inl _ => None
                end)
    = Some [s1; s2; s3] /\
    lookup (dt_data (sec_table s2)) "Commodity"
    = lookup (dt_data (sec_table s3)) "Commodity".
Proof.
  destruct (update_dashboard Synthetic.base_dir Synthetic.two_rows "2017")
    as [e | out] eqn:E; [vm_compute in E; discriminate E |].
  destruct (animal_and_meat_tables_list_same_commodities _ _ _ _ E)
    as (s1 & s2 & s3 & L & C).
  exists s1, s2, s3. split; [simpl; rewrite L; reflexivity | exact C].
Defined.

(** X14: the rows of every commodity table are in ascending order of the
    commodity key as it is spelled in the stage table (upper-case letters
    before lower-case ones), whatever the order of the rows of the file. *)
Theorem commodity_rows_sorted_by_key
        (base : string) (read : string -> M DataFrame) (year : string)
        (out : Outputs) :
  update_dashboard base read year = inr out ->
  exists n a i crop animal t,
    load_data base read year = inr (n, a, i, crop, animal, t) /\
    Forall2
      (fun stage sec =>
         exists names,
           lookup (deref (fst stage) (crop, animal)) "commodity" = Some (ObjCol names) /\
           lookup (dt_data (sec_table sec)) "Commodity"
           = Some (ObjCol (map label (group_keys (map (option_map KStr) names)))) /\
           Sorted key_le (group_keys (map (option_map KStr) names)))
      (combine stage_dfs stage_columns) (import_export_tables out).
Proof.
  intros H.
  apply update_dashboard_inr in H
    as (n & a & i & crop & animal & t & r & fig & tab & s & inv &
        Hl & Hm & _ & _ & Hs & _ & ->).
  exists n, a, i, crop, animal, t. split; [exact Hl |]. simpl.
  apply loss_maps_inr in Hm as [_ Km]. simpl in Km.
  apply stage_sections_inr in Hs as [Fs _].
  eapply Forall2_impl_in; [| exact Fs].
  intros [w cols] sec HIn [_ (df & Kd & Hd)]. simpl in *.
  assert (Hcols : In cols stage_columns).
  { repeat (destruct HIn as [HIn | HIn];
            [injection HIn as <- <-; simpl; tauto |]). contradiction. }
  destruct (commodity_table_inr _ _ _ Hcols Hd)
    as (names & m0 & m1 & m2 & Ln & _ & ->).
  exists names. split; [| split; [reflexivity | apply group_keys_sorted]].
  rewrite <- Km by reflexivity. rewrite <- Kd by reflexivity. exact Ln.
Qed.

(** X14, witness: in the synthetic year "CORN_GRAIN" comes before
    "corn_grain". *)
Lemma commodity_rows_sorted_by_key_witness :
  exists out,
    update_dashboard Synthetic.base_dir Synthetic.two_rows "2017" = inr out /\
    group_keys [Some (KStr "corn_grain"); Some (KStr "CORN_GRAIN")]
    = [KStr "CORN_GRAIN"; KStr "corn_grain"] /\
    List.length (import_export_tables out) = 3%nat.
Proof.
  destruct (update_dashboard Synthetic.base_dir Synthetic.two_rows "2017")
    as [e | out] eqn:E; [vm_compute in E; discriminate E |].
  destruct (commodity_rows_sorted_by_key _ _ _ _ E)
    as (n & a & i & crop & animal & t & _ & F).
  exists out. split; [reflexivity |]. split; [reflexivity |].
  rewrite <- (Forall2_length F). reflexivity.
Defined.

(** ** The inventory and harvested-area section *)

Lemma pie_names_inr (df : DataFrame) (names values title : string) (p : Pie) :
  pie df names values title = inr p -> lookup df names = Some (pie_names p).
Proof.
  unfold pie, px_column; intros H.
  apply bind_inr in H as (n & En & H). apply bind_inr in H as (v & _ & H).
  injection H as <-. simpl.
  destruct (lookup df names); [injection En as <-; reflexivity | discriminate].
Qed.

Lemma format_commodity_columns (df df' : DataFrame) :
  format_commodity df = inr df' ->
  columns df' = columns df /\
  forall names, lookup df "Commodity" = Some (ObjCol names) ->
    lookup df' "Commodity"
    = Some (ObjCol (map (option_map (fun s => Str.replace (Str.title s) "_" " ")) names)).
Proof.
  unfold format_commodity. destruct (has_column df "Commodity") eqn:Hc.
  - intros H.
    apply bind_inr in H as (c & Ec & H). apply bind_inr in H as (c' & Et & H).
    injection H as <-. apply getitem_inr in Ec.
    split; [rewrite columns_setitem, Hc; reflexivity |].
    intros names L. rewrite L in Ec. injection Ec as <-.
    simpl in Et. injection Et as <-. apply lookup_setitem_same.
  - intros H. injection H as <-. split; [reflexivity |].
    intros names L. apply has_column_lookup in Hc. congruence.
Qed.

Lemma columns_round (df : DataFrame) : columns (Frame.round df) = columns df.
Proof. unfold columns, Frame.round. rewrite map_map. reflexivity. Qed.

(** X15: the two tables of the section have the columns of their files, in
    the files' order; a label column of strings is shown formatted
    (title-cased, underscores replaced by spaces) in the table and in the
    pie chart alike. *)
Theorem inventory_tables_keep_columns
        (inventory_df area_df : DataFrame) (sec : InventorySection) :
  inventory_harvest inventory_df area_df = inr sec ->
  dt_columns (inventory_table sec) = columns inventory_df /\
  dt_columns (area_table sec) = columns area_df /\
  (forall names,
      lookup inventory_df "Commodity" = Some (ObjCol names) ->
      pie_names (inventory_chart sec)
      = ObjCol (map (option_map (fun s => Str.replace (Str.title s) "_" " ")) names) /\
      lookup (dt_data (inventory_table sec)) "Commodity"
      = Some (ObjCol (map (option_map (fun s => Str.replace (Str.title s) "_" " ")) names))) /\
  (forall names,
      lookup area_df "Commodity" = Some (ObjCol names) ->
      pie_names (area_chart sec)
      = ObjCol (map (option_map (fun s => Str.replace (Str.title s) "_" " ")) names) /\
      lookup (dt_data (area_table sec)) "Commodity"
      = Some (ObjCol (map (option_map (fun s => Str.replace (Str.title s) "_" " ")) names))).
Proof.
  unfold inventory_harvest; intros H.
  apply bind_inr in H as (inv' & Ei & H). apply bind_inr in H as (area' & Ea & H).
  apply bind_inr in H as (ic & Eic & H). apply bind_inr in H as (ac & Eac & H).
  injection H as <-.
  cbn [inventory_table area_table inventory_chart area_chart data_table
       dt_columns dt_data].
  apply format_commodity_columns in Ei as [Ci Li].
  apply format_commodity_columns in Ea as [Ca La].
  apply pie_names_inr in Eic, Eac.
  rewrite !columns_round, Ci, Ca.
  split; [reflexivity |]. split; [reflexivity |].
  split; intros names L.
  - specialize (Li names L). rewrite Li in Eic. injection Eic as <-.
    split; [reflexivity |]. rewrite lookup_round, Li. reflexivity.
  - specialize (La names L). rewrite La in Eac. injection Eac as <-.
    split; [reflexivity |]. rewrite lookup_round, La. reflexivity.
Qed.

(** X15, witness: the synthetic inventory and harvested-area files. *)
Lemma inventory_tables_keep_columns_witness :
  exists sec,
    inventory_harvest Synthetic.inventory Synthetic.area = inr sec /\
    dt_columns (inventory_table sec) = ["Commodity"; "Total Inventory (head)"] /\
    pie_names (inventory_chart sec) = ObjCol [Some "Beef Cattle"; Some "Broilers"].
Proof.
  destruct (inventory_harvest Synthetic.inventory Synthetic.area)
    as [e | sec] eqn:E; [vm_compute in E; discriminate E |].
  destruct (inventory_tables_keep_columns _ _ _ E) as (C & _ & N & _).
  exists sec. split; [reflexivity |]. split; [exact C |].
  exact (proj1 (N _ eq_refl)).
Defined.

(** X16: the test at line 303 guards the formatting only.  An inventory
    file without a column named "Commodity" is left unformatted and the
    pie chart, which takes its names from that column, raises
    [ValueError]; no section is returned. *)
Theorem pie_chart_needs_commodity_column
        (inventory_df area_df area' : DataFrame) :
  has_column inventory_df "Commodity" = false ->
  format_commodity area_df = inr area' ->
  inventory_harvest inventory_df area_df
  = inl (ValueError "Value of 'names' is not the name of a column in 'data_frame'").
Proof.
  intros Hc Fa. unfold inventory_harvest, format_commodity at 1.
  rewrite Hc. cbn [bind ret]. rewrite Fa. cbn [bind].
  unfold pie, px_column. apply has_column_lookup in Hc. rewrite Hc. reflexivity.
Qed.

(** X16, witness: an inventory file whose label column is named
    "Animal". *)
Lemma pie_chart_needs_commodity_column_witness :
  exn_class
    (match inventory_harvest Faulty.inventory_unlabelled Synthetic.area with
     | inl e => e
     | inr _ => Raise "" ""
     end) = "ValueError".
Proof.
  rewrite (pie_chart_needs_commodity_column
             Faulty.inventory_unlabelled Synthetic.area _ eq_refl eq_refl).
  reflexivity.
Defined.

(** ** The year dropdown *)

(** X17: the years the dropdown offers are the keys of the path table,
    each shown under its own name.  For a year it offers, the loader
    resolves the directory [base_dir/data/year]; for any other year the
    lookup raises [KeyError]; the year selected when the page opens is one
    of those offered. *)
Theorem dropdown_years_are_the_loadable_years (base year : string) :
  map fst (dropdown_options base) = map snd (dropdown_options base) /\
  (In year (map snd (dropdown_options base)) ->
   dict_get (data_paths base) year = inr (path_join (path_join base "data") year)) /\
  (~ In year (map snd (dropdown_options base)) ->
   dict_get (data_paths base) year = inl (KeyError year)) /\
  In dropdown_value (map snd (dropdown_options base)).
Proof.
  split; [reflexivity |]. split; [| split].
  - intros H. apply dict_get_valid. exact H.
  - intros H. apply dict_get_missing. exact H.
  - simpl. tauto.
Qed.

(** ** What each loss map shows *)

Lemma add_log_choropleth_data (w : which) (col title : string) (st st' : frames)
      (fig : Choropleth) :
  add_log w col st = inr st' ->
  choropleth (deref w st') "FIPS" ("log_" ++ col) "county" col title = inr fig ->
  exists xs,
    lookup (deref w st) col = Some (NumCol xs) /\
    ch_hover_data fig = NumCol xs /\ ch_color fig = LogCol xs /\
    lookup (deref w st) "FIPS" = Some (ch_locations fig) /\
    lookup (deref w st) "county" = Some (ch_hover_name fig).
Proof.
  intros H C. apply add_log_inr in H as (xs & L & ->).
  assert (D : deref w (assign w (setitem (deref w st) ("log_" ++ col) (LogCol xs)) st)
              = setitem (deref w st) ("log_" ++ col) (LogCol xs))
    by (destruct w; reflexivity).
  rewrite D in C. unfold choropleth, px_column in C.
  rewrite lookup_setitem_same in C.
  rewrite (lookup_setitem_other _ _ col) in C by apply log_name_fresh.
  rewrite (lookup_setitem_other _ _ "FIPS") in C
    by (apply log_name_differs; reflexivity).
  rewrite (lookup_setitem_other _ _ "county") in C
    by (apply log_name_differs; reflexivity).
  rewrite L in C.
  destruct (lookup (deref w st) "FIPS") as [f |]; [| discriminate C].
  destruct (lookup (deref w st) "county") as [c |]; [| discriminate C].
  cbn [bind ret] in C. injection C as <-.
  exists xs. split; [exact L |]. repeat split.
Qed.

Lemma loss_maps_data (items : list (string * string)) :
  Forall (fun it => String.prefix "log_" (fst it) = false) items ->
  forall (i : nat) (st : frames) (r : list Choropleth * frames),
    loss_maps i items st = inr r ->
    Forall2 (fun p fig =>
               exists xs,
                 lookup (deref (if (fst p <? 2)%nat then Crop else Animal) st)
                        (fst (snd p)) = Some (NumCol xs) /\
                 ch_hover_data fig = NumCol xs /\ ch_color fig = LogCol xs /\
                 lookup (deref (if (fst p <? 2)%nat then Crop else Animal) st) "FIPS"
                 = Some (ch_locations fig))
            (combine (seq i (List.length items)) items) (fst r).
Proof.
  induction 1 as [| [col lab] items P Fi IH]; intros i st r H; simpl in H.
  - injection H as <-. constructor.
  - apply bind_inr in H as (st1 & Ea & H). apply bind_inr in H as (fig & Ef & H).
    apply bind_inr in H as (r' & Er & H). injection H as <-.
    cbn [fst List.length seq combine snd].
    destruct (add_log_choropleth_data _ _ _ _ _ _ Ea Ef) as (xs & L & Hh & Hc & Hf & _).
    constructor.
    + exists xs. cbn [fst snd]. auto.
    + eapply Forall2_impl_in; [| exact (IH _ _ _ Er)].
      intros [j [c l]] fig' HIn (ys & L' & Hh' & Hc' & Hf'). cbn [fst snd] in *.
      exists ys. split; [| split; [exact Hh' | split; [exact Hc' |]]].
      * rewrite <- L'. symmetry. apply (add_log_keeps _ _ _ _ Ea).
        apply in_combine_r in HIn.
        rewrite Forall_forall in Fi. exact (Fi _ HIn).
      * rewrite <- Hf'. symmetry. apply (add_log_keeps _ _ _ _ Ea). reflexivity.
Qed.

(** X18: each loss map shows its own category.  The maps of stages 1 and 2
    take the columns nitrogen_loss1 and nitrogen_loss2 and the FIPS keys of
    the loaded crop-stage table, the maps of stages 3 to 7 the columns
    nitrogen_loss3 to nitrogen_loss7 and the keys of the animal-stage
    table; each shows the loaded values on hover and is colored by their
    log scale. *)
Theorem loss_maps_show_their_category
        (base : string) (read : string -> M DataFrame) (year : string)
        (out : Outputs) :
  update_dashboard base read year = inr out ->
  exists n a i crop animal t,
    load_data base read year = inr (n, a, i, crop, animal, t) /\
    Forall2 (fun name fig =>
               exists xs,
                 lookup (if existsb (String.eqb name) crop_loss_columns
                         then crop else animal) name = Some (NumCol xs) /\
                 ch_hover_data fig = NumCol xs /\ ch_color fig = LogCol xs /\
                 lookup (if existsb (String.eqb name) crop_loss_columns
                         then crop else animal) "FIPS" = Some (ch_locations fig))
            (crop_loss_columns ++ animal_loss_columns)
            (firstn 7 (chloropleth_maps out)).
Proof.
  intros H.
  apply update_dashboard_inr in H
    as (n & a & i & crop & animal & t & r & fig & tab & s & inv &
        Hl & Hm & _ & _ & _ & _ & ->).
  exists n, a, i, crop, animal, t. split; [exact Hl |].
  cbn [chloropleth_maps].
  apply loss_maps_data in Hm; [| repeat constructor].
  cbn [nitrogen_loss_labels List.length seq combine] in Hm.
  inv_Forall2. cbn [app firstn].
  repeat match goal with
         | E : exists _, _ |- _ => destruct E as (? & ? & ? & ? & ?)
         end.
  cbn [fst snd Nat.ltb Nat.leb deref] in *.
  repeat (constructor; [eexists; repeat split; eassumption |]).
  constructor.
Qed.

(** X18, witness: the third map of the synthetic year shows the two
    millions of nitrogen_loss3. *)
Lemma loss_maps_show_their_category_witness :
  exists out fig,
    update_dashboard Synthetic.base_dir Synthetic.two_rows "2017" = inr out /\
    nth_error (chloropleth_maps out) 2 = Some fig /\
    ch_hover_data fig = NumCol [Synthetic.num 2000000; Synthetic.num 2000000] /\
    List.length (firstn 7 (chloropleth_maps out)) = 7%nat.
Proof.
  destruct (update_dashboard Synthetic.base_dir Synthetic.two_rows "2017")
    as [e | out] eqn:E; [vm_compute in E; discriminate E |].
  destruct (loss_maps_show_their_category _ _ _ _ E)
    as (n & a & i & crop & animal & t & _ & F).
  apply Forall2_length in F.
  vm_compute in E. injection E as <-.
  eexists _, _. split; [reflexivity |]. split; [reflexivity |].
  split; [reflexivity | symmetry; exact F].
Defined.
